(** * enspeechpj: the speech widget and the avatar widget

    A shallow embedding of the React components of the repository:

    - [Azure]          src/components/azure/Azure.tsx, the speech widget;
    - [KlleonCyclic]   src/components/klleon/klleon.tsx, the avatar widget
                       in the revision whose cursor wraps around and whose
                       [startSDK] has no test of its own;
    - [KlleonGuarded]  the other revision of the avatar widget, with
                       [isInitializing] and a cursor that stops at the end
                       of the list.

    Component state ([useState], [useRef]) is a record that every handler
    takes and returns; a state update is in effect when the next event is
    handled.  Calls into the vendor SDKs, [alert] and [console] are
    recorded, in program order, in a list of effects; synchronous vendor
    calls are assumed to return normally.  An [async] function is cut at
    its [await]s: the part before and the part after are separate steps,
    and the outcome of the awaited promise is an argument of the step that
    continues. *)

From Stdlib Require Import String Ascii List Bool Arith Lia DecimalString.
Import ListNotations.
Open Scope string_scope.

(** ** JavaScript values *)

Module Js.

(** The line feed of the ["\n"] escapes. *)
Definition LF : string := String (ascii_of_nat 10) EmptyString.

(** Truthiness of a string: only the empty string is falsy. *)
Definition truthy (s : string) : bool :=
  match s with EmptyString => false | String _ _ => true end.

(** A value of type [string | undefined]; [undefined] is falsy. *)
Definition truthyOpt (o : option string) : bool :=
  match o with Some s => truthy s | None => false end.

(** [a ?? b]. *)
Definition nullish {A : Type} (o : option A) (d : A) : A :=
  match o with Some a => a | None => d end.

(** [String(n)] for a non-negative integer. *)
Definition natToString (n : nat) : string :=
  NilZero.string_of_uint (Nat.to_uint n).

(** [Array.prototype.reduce] without an initial value: [None] stands for
    the TypeError on an empty array. *)
Definition reduce {A : Type} (f : A -> A -> A) (l : list A) : option A :=
  match l with
  | [] => None
  | x :: xs => Some (fold_left f xs x)
  end.

(** Handlers: a state, a list of effects, and a thrown exception or a
    returned value. *)
Inductive Outcome (A : Type) : Type :=
| Returned (a : A)
| Thrown (message : string).
Arguments Returned {A} a.
Arguments Thrown {A} message.

Definition Act (St E A : Type) : Type := St -> Outcome A * St * list E.

Definition ret {St E A} (a : A) : Act St E A :=
  fun s => (Returned a, s, []).

Definition bind {St E A B} (m : Act St E A) (k : A -> Act St E B) : Act St E B :=
  fun s =>
    match m s with
    | (Returned a, s1, e1) =>
        match k a s1 with (r, s2, e2) => (r, s2, (e1 ++ e2)%list) end
    | (Thrown msg, s1, e1) => (Thrown msg, s1, e1)
    end.

Definition throw {St E A} (msg : string) : Act St E A :=
  fun s => (Thrown msg, s, []).

(** [try { body } catch (e) { handler(e.message) }]. *)
Definition tryCatch {St E A} (body : Act St E A) (handler : string -> Act St E A)
  : Act St E A :=
  fun s =>
    match body s with
    | (Returned a, s1, e1) => (Returned a, s1, e1)
    | (Thrown msg, s1, e1) =>
        match handler msg s1 with (r, s2, e2) => (r, s2, (e1 ++ e2)%list) end
    end.

Definition get {St E} : Act St E St := fun s => (Returned s, s, []).
Definition modify {St E} (f : St -> St) : Act St E unit :=
  fun s => (Returned tt, f s, []).
Definition emit {St E} (e : E) : Act St E unit :=
  fun s => (Returned tt, s, [e]).

(** [xs.forEach((x, idx) => f(x, idx))], [idx] counted from [i]. *)
Fixpoint forEachFrom {St E A} (i : nat) (xs : list A)
         (f : A -> nat -> Act St E unit) : Act St E unit :=
  match xs with
  | [] => ret tt
  | x :: rest => bind (f x i) (fun _ => forEachFrom (S i) rest f)
  end.

Definition forEach {St E A} (xs : list A) (f : A -> nat -> Act St E unit)
  : Act St E unit := forEachFrom 0 xs f.

Definition stateOf {St E A} (r : Outcome A * St * list E) : St := snd (fst r).
Definition effectsOf {St E A} (r : Outcome A * St * list E) : list E := snd r.

End Js.

Import Js.

Declare Scope act_scope.
Delimit Scope act_scope with act.
Notation "x <- m ;; k" := (bind m (fun x => k))
  (at level 61, m at next level, right associativity) : act_scope.
Notation "m ;; k" := (bind m (fun _ => k))
  (at level 61, right associativity) : act_scope.

(** ** The speech widget: src/components/azure/Azure.tsx *)

Module Azure.

(** [sdk.ResultReason]: the members a recognizer reports, and the rest of
    the vendor's enumeration by number. *)
Inductive ResultReason : Type :=
| NoMatch
| Canceled
| RecognizingSpeech
| RecognizedSpeech
| OtherReason (code : nat).

Definition isRecognizedSpeech (r : ResultReason) : bool :=
  match r with RecognizedSpeech => true | _ => false end.

(** [sdk.CancellationReason], printed as its number by a template. *)
Inductive CancellationReason : Type := CancelError | EndOfStream.

Definition cancellationCode (r : CancellationReason) : nat :=
  match r with CancelError => 0 | EndOfStream => 1 end.

Inductive PropertyId : Type :=
| SpeechServiceConnection_InitialSilenceTimeoutMs
| SpeechServiceConnection_EndSilenceTimeoutMs.

Inductive PronunciationAssessmentGradingSystem : Type :=
| FivePoint | HundredMark.

Inductive PronunciationAssessmentGranularity : Type :=
| Phoneme | WordLevel | FullText.

(** What [startMic] builds before it creates the recognizer. *)
Record SpeechConfig : Type := mkSpeechConfig {
  subscriptionKey : string;
  serviceRegion : string;
  speechRecognitionLanguage : option string;
  properties : list (PropertyId * string)
}.

Inductive AudioConfig : Type := DefaultMicrophoneInput.

Record PronunciationAssessmentConfig : Type := mkPAConfig {
  referenceText : string;
  gradingSystem : PronunciationAssessmentGradingSystem;
  granularity : PronunciationAssessmentGranularity;
  enableMiscue : bool;
  enableProsodyAssessment : bool
}.

Definition fromSubscription (key region : string) : SpeechConfig :=
  mkSpeechConfig key region None [].

Definition set_speechRecognitionLanguage (c : SpeechConfig) (lang : string)
  : SpeechConfig :=
  mkSpeechConfig (subscriptionKey c) (serviceRegion c) (Some lang)
                 (properties c).

Definition setProperty (c : SpeechConfig) (id : PropertyId) (v : string)
  : SpeechConfig :=
  mkSpeechConfig (subscriptionKey c) (serviceRegion c)
                 (speechRecognitionLanguage c)
                 (properties c ++ [(id, v)])%list.

(** [new sdk.PronunciationAssessmentConfig(ref, grading, granularity,
    miscue)]: prosody is off until it is switched on. *)
Definition newPronunciationAssessmentConfig
           (ref : string) (g : PronunciationAssessmentGradingSystem)
           (gr : PronunciationAssessmentGranularity) (miscue : bool)
  : PronunciationAssessmentConfig :=
  mkPAConfig ref g gr miscue false.

Definition set_enableProsodyAssessment
           (pa : PronunciationAssessmentConfig) (b : bool)
  : PronunciationAssessmentConfig :=
  mkPAConfig (referenceText pa) (gradingSystem pa) (granularity pa)
             (enableMiscue pa) b.

(** [import.meta.env]. *)
Record Env : Type := mkEnv {
  VITE_AZURE_SPEECH_KEY : option string;
  VITE_AZURE_SPEECH_REGION : option string
}.

(** The [as string] cast of a value already tested truthy. *)
Definition asString (o : option string) : string := nullish o EmptyString.

Section Component.

(** JavaScript numbers (the scores) and their [String(n)]. *)
Variable Num : Type.
Variable numToString : Num -> string.

(** The environment, and whether this version of the vendor SDK has a
    method [enableProsodyAssessment]: [startMic] calls it when it is there
    and assigns [true] to the property in either case. *)
Variable env : Env.
Variable prosodyIsMethod : bool.

(** An entry of [detailResult.Words]. *)
Record WordDetail : Type := mkWord {
  Word : string;
  AccuracyScore : option Num
}.

(** [sdk.PronunciationAssessmentResult.fromResult(r)]. *)
Record PronunciationAssessmentResult : Type := mkPAResult {
  accuracyScore : option Num;
  fluencyScore : option Num;
  prosodyScore : option Num;
  detailWords : option (list WordDetail)
}.

(** [sdk.SpeechRecognitionResult]; [fromResult] is what the vendor
    parses out of the result.  The characters of [text] stand for the
    UTF-16 code units of the JavaScript string, and a missing text for the
    empty one (both are falsy). *)
Record SpeechRecognitionResult : Type := mkResult {
  reason : ResultReason;
  text : string;
  fromResult : PronunciationAssessmentResult
}.

(** The component: [log], [listening], [recognizerRef.current],
    [resultsRef.current]; [created] counts the recognizers constructed
    so far and names the next one. *)
Record State : Type := mkState {
  log : string;
  listening : bool;
  recognizerRef : option nat;
  resultsRef : list SpeechRecognitionResult;
  created : nat
}.

Definition initialState : State := mkState EmptyString false None [] 0.

Inductive Effect : Type :=
| GetUserMedia
| Alert (msg : string)
| Call_enableProsodyAssessment
| New_SpeechRecognizer (recognizer : nat) (c : SpeechConfig) (a : AudioConfig)
| ApplyTo (pa : PronunciationAssessmentConfig) (recognizer : nat)
| StartContinuousRecognitionAsync (recognizer : nat)
| StopContinuousRecognitionAsync (recognizer : nat)
| Close (recognizer : nat).

Definition Handler : Type -> Type := Act State Effect.

Definition setLog (f : string -> string) : Handler unit :=
  modify (fun st => mkState (f (log st)) (listening st) (recognizerRef st)
                            (resultsRef st) (created st)).

Definition setListening (b : bool) : Handler unit :=
  modify (fun st => mkState (log st) b (recognizerRef st)
                            (resultsRef st) (created st)).

Definition set_recognizerRef (r : option nat) : Handler unit :=
  modify (fun st => mkState (log st) (listening st) r
                            (resultsRef st) (created st)).

Definition set_resultsRef (l : list SpeechRecognitionResult)
  : Handler unit :=
  modify (fun st => mkState (log st) (listening st) (recognizerRef st)
                            l (created st)).

(** [new sdk.SpeechRecognizer(speechConfig, audioConfig)]. *)
Definition newSpeechRecognizer (c : SpeechConfig) (a : AudioConfig)
  : Handler nat :=
  (st <- get ;;
   modify (fun st => mkState (log st) (listening st) (recognizerRef st)
                             (resultsRef st) (S (created st))) ;;
   emit (New_SpeechRecognizer (created st) c a) ;;
   ret (created st))%act.

(** [append]: [setLog((p) => p + s + "\n")]. *)
Definition append (s : string) : Handler unit :=
  setLog (fun p => p ++ s ++ LF).

(** [ensureMicPermission]; [granted] is whether [getUserMedia]
    resolves. *)
Definition ensureMicPermission (granted : bool) : Handler bool :=
  (emit GetUserMedia ;;
   if granted then ret true
   else (emit (Alert "마이크 권한을 허용해주세요.") ;; ret false))%act.

(** [startMic], up to the call that starts continuous recognition; the
    callbacks it binds are the [on...] handlers below. *)
Definition startMic (granted : bool) : Handler unit :=
  (ok <- ensureMicPermission granted ;;
   if negb ok then ret tt
   else
     setLog (fun _ => EmptyString) ;;
     set_resultsRef [] ;;
     tryCatch
       (let key := VITE_AZURE_SPEECH_KEY env in
        let region := VITE_AZURE_SPEECH_REGION env in
        if negb (truthyOpt key) || negb (truthyOpt region)
        then throw "VITE_AZURE_SPEECH_KEY/REGION 환경변수를 확인하세요."
        else
          let speechConfig :=
            fromSubscription (asString key) (asString region) in
          let speechConfig :=
            set_speechRecognitionLanguage speechConfig "en-US" in
          let speechConfig :=
            setProperty speechConfig
              SpeechServiceConnection_InitialSilenceTimeoutMs "15000" in
          let speechConfig :=
            setProperty speechConfig
              SpeechServiceConnection_EndSilenceTimeoutMs "15000" in
          let audioConfig := DefaultMicrophoneInput in
          let pa :=
            newPronunciationAssessmentConfig EmptyString HundredMark Phoneme false in
          (if prosodyIsMethod then emit Call_enableProsodyAssessment
           else ret tt) ;;
          let pa := set_enableProsodyAssessment pa true in
          recognizer <- newSpeechRecognizer speechConfig audioConfig ;;
          set_recognizerRef (Some recognizer) ;;
          emit (ApplyTo pa recognizer) ;;
          emit (StartContinuousRecognitionAsync recognizer))
       (fun message => append ("Error: " ++ message)))%act.

(** The objects [startMic] hands to the vendor when both credentials
    are there, and the test it makes on them. *)
Definition builtSpeechConfig : SpeechConfig :=
  mkSpeechConfig
    (asString (VITE_AZURE_SPEECH_KEY env))
    (asString (VITE_AZURE_SPEECH_REGION env))
    (Some "en-US")
    [(SpeechServiceConnection_InitialSilenceTimeoutMs, "15000");
     (SpeechServiceConnection_EndSilenceTimeoutMs, "15000")].

Definition credentialsMissing : bool :=
  negb (truthyOpt (VITE_AZURE_SPEECH_KEY env))
  || negb (truthyOpt (VITE_AZURE_SPEECH_REGION env)).

(** [recognizer.sessionStarted]. *)
Definition onSessionStarted (sessionId : string) : Handler unit :=
  append ("Session started: " ++ sessionId).

(** The test of [recognizer.recognized] and of the filter of
    [processBufferedResults]. *)
Definition isCandidate (r : SpeechRecognitionResult) : bool :=
  isRecognizedSpeech (reason r) && truthy (text r).

(** [recognizer.recognized]. *)
Definition onRecognized (result : SpeechRecognitionResult) : Handler unit :=
  (if isCandidate result
   then st <- get ;; set_resultsRef (resultsRef st ++ [result])%list
   else ret tt)%act.

(** [recognizer.canceled]: [e.errorDetails || e.reason]. *)
Definition onCanceled (errorDetails : option string)
           (why : CancellationReason) : Handler unit :=
  append ("Canceled: " ++
          (if truthyOpt errorDetails then asString errorDetails
           else natToString (cancellationCode why))).

(** The two callbacks of [startContinuousRecognitionAsync]. *)
Definition onStarted : Handler unit :=
  (setListening true ;;
   append "Continuous recognition started. 자유롭게 말하세요...")%act.

Definition onStartError (recognizer : nat) (err : string) : Handler unit :=
  (append ("Start error: " ++ err) ;;
   emit (Close recognizer) ;;
   set_recognizerRef None)%act.

(** [r.text.length]. *)
Definition textLength (r : SpeechRecognitionResult) : nat :=
  String.length (text r).

(** [(a, b) => b.text.length >= a.text.length ? b : a]. *)
Definition longerOrLater (a b : SpeechRecognitionResult)
  : SpeechRecognitionResult :=
  if (textLength a <=? textLength b)%nat then b else a.

(** [score ?? "N/A"] inside a template. *)
Definition showScore (o : option Num) : string :=
  nullish (option_map numToString o) "N/A".

(** [processBufferedResults]. *)
Definition processBufferedResults : Handler unit :=
  (st <- get ;;
   let candidates := filter isCandidate (resultsRef st) in
   if (List.length candidates =? 0)%nat
   then append "No speech captured."
   else
     match reduce longerOrLater candidates with
     | None => throw "Reduce of empty array with no initial value"
     | Some finalRes =>
         append (LF ++ "=== FINAL (Unscripted) ===" ++ LF ++ "Text: "
                    ++ text finalRes) ;;
         let paResult := fromResult finalRes in
         let accuracy := showScore (accuracyScore paResult) in
         let fluency := showScore (fluencyScore paResult) in
         let prosody := showScore (prosodyScore paResult) in
         append ("Accuracy=" ++ accuracy ++ " | Fluency=" ++ fluency
                   ++ " | Prosody=" ++ prosody) ;;
         forEach (nullish (detailWords paResult) [])
                 (fun w idx =>
                    append (natToString (idx + 1) ++ ". " ++ Word w
                              ++ "  acc=" ++ showScore (AccuracyScore w))) ;;
         set_resultsRef []
     end)%act.

(** [stopMic], and the two callbacks of
    [stopContinuousRecognitionAsync]. *)
Definition stopMic : Handler unit :=
  (st <- get ;;
   match recognizerRef st with
   | None => ret tt
   | Some r => emit (StopContinuousRecognitionAsync r)
   end)%act.

Definition onStopped (r : nat) : Handler unit :=
  (append "Recognition stopped by user." ;;
   processBufferedResults ;;
   emit (Close r) ;;
   set_recognizerRef None ;;
   setListening false)%act.

Definition onStopError (err : string) : Handler unit :=
  append ("Stop error: " ++ err).

(** What can happen to the component: the two buttons, and the vendor
    calling a callback back. *)
Inductive Event : Type :=
| Click_startMic (granted : bool)
| Click_stopMic
| SessionStarted (sessionId : string)
| Recognized (result : SpeechRecognitionResult)
| RecognitionCanceled (errorDetails : option string)
                      (why : CancellationReason)
| Started
| StartError (recognizer : nat) (err : string)
| Stopped (recognizer : nat)
| StopError (err : string).

Definition handle (ev : Event) : Handler unit :=
  match ev with
  | Click_startMic granted => startMic granted
  | Click_stopMic => stopMic
  | SessionStarted sessionId => onSessionStarted sessionId
  | Recognized result => onRecognized result
  | RecognitionCanceled d why => onCanceled d why
  | Started => onStarted
  | StartError r err => onStartError r err
  | Stopped r => onStopped r
  | StopError err => onStopError err
  end.

(** The state after a sequence of events. *)
Definition run (evs : list Event) (st : State) : State :=
  fold_left (fun s ev => stateOf (handle ev s)) evs st.

(** The utterance [processBufferedResults] reports for a buffer. *)
Definition finalResult (buffer : list SpeechRecognitionResult)
  : option SpeechRecognitionResult :=
  reduce longerOrLater (filter isCandidate buffer).

(** The lines [processBufferedResults] writes for the utterance it
    chose. *)
Fixpoint wordLines (i : nat) (ws : list WordDetail) : string :=
  match ws with
  | [] => EmptyString
  | w :: rest =>
      natToString (i + 1) ++ ". " ++ Word w ++ "  acc="
        ++ showScore (AccuracyScore w) ++ LF ++ wordLines (S i) rest
  end.

Definition report (r : SpeechRecognitionResult) : string :=
  LF ++ "=== FINAL (Unscripted) ===" ++ LF ++ "Text: " ++ text r ++ LF
     ++ "Accuracy=" ++ showScore (accuracyScore (fromResult r))
     ++ " | Fluency=" ++ showScore (fluencyScore (fromResult r))
     ++ " | Prosody=" ++ showScore (prosodyScore (fromResult r)) ++ LF
     ++ wordLines 0 (nullish (detailWords (fromResult r)) []).

End Component.

Arguments Word {Num}.
Arguments AccuracyScore {Num}.
Arguments mkWord {Num}.
Arguments accuracyScore {Num}.
Arguments fluencyScore {Num}.
Arguments prosodyScore {Num}.
Arguments detailWords {Num}.
Arguments mkPAResult {Num}.
Arguments reason {Num}.
Arguments text {Num}.
Arguments fromResult {Num}.
Arguments mkResult {Num}.
Arguments log {Num}.
Arguments listening {Num}.
Arguments recognizerRef {Num}.
Arguments resultsRef {Num}.
Arguments created {Num}.
Arguments mkState {Num}.
Arguments initialState {Num}.
Arguments setLog {Num}.
Arguments setListening {Num}.
Arguments set_recognizerRef {Num}.
Arguments set_resultsRef {Num}.
Arguments newSpeechRecognizer {Num}.
Arguments append {Num}.
Arguments ensureMicPermission {Num}.
Arguments startMic {Num}.
Arguments onSessionStarted {Num}.
Arguments isCandidate {Num}.
Arguments onRecognized {Num}.
Arguments onCanceled {Num}.
Arguments onStarted {Num}.
Arguments onStartError {Num}.
Arguments textLength {Num}.
Arguments longerOrLater {Num}.
Arguments showScore {Num}.
Arguments processBufferedResults {Num}.
Arguments stopMic {Num}.
Arguments onStopped {Num}.
Arguments onStopError {Num}.
Arguments Click_startMic {Num}.
Arguments Click_stopMic {Num}.
Arguments SessionStarted {Num}.
Arguments Recognized {Num}.
Arguments RecognitionCanceled {Num}.
Arguments Started {Num}.
Arguments StartError {Num}.
Arguments Stopped {Num}.
Arguments StopError {Num}.
Arguments handle {Num}.
Arguments run {Num}.
Arguments finalResult {Num}.
Arguments wordLines {Num}.
Arguments report {Num}.

End Azure.

(** ** The avatar widget *)

(** What both revisions of the widget call: [window.KlleonChat], [alert],
    [console] and [setTimeout]. *)
Module KlleonChat.

(** The configuration object of [init]. *)
Record InitOption : Type := mkInitOption {
  sdk_key : option string;
  avatar_id : option string
}.

Inductive Effect : Type :=
| OnStatusEvent
| OnChatEvent
| Init (option : InitOption)
| Destroy
| Echo (message : option string)
| StopSpeech
| Alert (msg : string)
| ConsoleLog (args : list string)
| ConsoleError (args : list string)
| SetTimeout (ms : nat).

(** The module constants [SDK_KEY] and [AVATAR_ID], read from
    [import.meta.env]. *)
Record Env : Type := mkEnv {
  SDK_KEY : option string;
  AVATAR_ID : option string
}.

(** [l.splice(i, 1)]. *)
Fixpoint removeAt {A : Type} (i : nat) (l : list A) : list A :=
  match l, i with
  | [], _ => []
  | _ :: rest, 0 => rest
  | x :: rest, S j => x :: removeAt j rest
  end.

(** The arguments of the calls of [echo] among some effects, in order. *)
Fixpoint spoken (effs : list Effect) : list (option string) :=
  match effs with
  | [] => []
  | Echo message :: rest => message :: spoken rest
  | _ :: rest => spoken rest
  end.

End KlleonChat.

(** *** src/components/klleon/klleon.tsx: the cursor wraps around *)

Module KlleonCyclic.
Import KlleonChat.

Record State : Type := mkState {
  isAvatarSpeaking : bool;
  status : string;
  isSDKInitialized : bool;
  echoMessages : list string;
  currentEchoIndex : nat
}.

(** The first render, for the list of [echoMessages.json]. *)
Definition initialState (echoMessagesData : list string) : State :=
  mkState false "IDLE" false echoMessagesData 0.

(** An [async] handler waiting at its [await]. *)
Inductive Task : Type :=
| StartSDK_awaitInit
| StopSDK_awaitInit.

Definition Handler : Type -> Type := Act State Effect.

Definition setIsAvatarSpeaking (b : bool) : Handler unit :=
  modify (fun st => mkState b (status st) (isSDKInitialized st)
                            (echoMessages st) (currentEchoIndex st)).

Definition setStatus (s : string) : Handler unit :=
  modify (fun st => mkState (isAvatarSpeaking st) s (isSDKInitialized st)
                            (echoMessages st) (currentEchoIndex st)).

Definition setIsSDKInitialized (b : bool) : Handler unit :=
  modify (fun st => mkState (isAvatarSpeaking st) (status st) b
                            (echoMessages st) (currentEchoIndex st)).

Definition setCurrentEchoIndex (f : nat -> nat) : Handler unit :=
  modify (fun st => mkState (isAvatarSpeaking st) (status st)
                            (isSDKInitialized st) (echoMessages st)
                            (f (currentEchoIndex st))).

Section Component.
Variable env : Env.

(** The callback given to [onStatusEvent]. *)
Definition onStatus (s : string) : Handler unit :=
  (setStatus s ;;
   if String.eqb s "VIDEO_CAN_PLAY"
   then emit (ConsoleLog ["아바타 영상 재생 준비 완료!"])
   else ret tt)%act.

(** The callback given to [onChatEvent]. *)
Definition onChat (chat_type : string) : Handler unit :=
  (emit (ConsoleLog ["SDK Chat Event:"; chat_type]) ;;
   (if String.eqb chat_type "PREPARING_RESPONSE"
    then setIsAvatarSpeaking true else ret tt) ;;
   (if String.eqb chat_type "RESPONSE_IS_ENDED"
    then setIsAvatarSpeaking false else ret tt))%act.

(** [startSDK] up to its [await KlleonChat.init(...)]. *)
Definition startSDK : Handler (option Task) :=
  (emit OnStatusEvent ;;
   emit OnChatEvent ;;
   emit (Init (mkInitOption (SDK_KEY env) (AVATAR_ID env))) ;;
   ret (Some StartSDK_awaitInit))%act.

(** [startSDK] after the [await]; [rejected] is the error of a rejected
    promise. *)
Definition startSDK_afterInit (rejected : option string)
  : Handler (option Task) :=
  (tryCatch
     (match rejected with
      | Some error => throw error
      | None =>
          setIsSDKInitialized true ;;
          emit (ConsoleLog ["SDK 초기화 완료"])
      end)
     (fun error => emit (ConsoleError ["SDK 초기화 실패:"; error])) ;;
   ret None)%act.

(** [stopSDK] up to its [await KlleonChat.init(...)]. *)
Definition stopSDK : Handler (option Task) :=
  (emit (Init (mkInitOption (Some EmptyString) (AVATAR_ID env))) ;;
   ret (Some StopSDK_awaitInit))%act.

Definition stopSDK_afterInit (rejected : option string)
  : Handler (option Task) :=
  (tryCatch
     (match rejected with
      | Some error => throw error
      | None =>
          emit Destroy ;;
          setIsSDKInitialized false ;;
          setStatus "IDLE" ;;
          setIsAvatarSpeaking false ;;
          emit (ConsoleLog ["SDK 종료 완료"])
      end)
     (fun error => emit (ConsoleError ["SDK 종료 실패:"; error])) ;;
   ret None)%act.

(** [playNextEcho]: [echoMessages[currentEchoIndex]] is [undefined]
    out of range. *)
Definition playNextEcho : Handler unit :=
  (st <- get ;;
   if negb (isSDKInitialized st)
   then emit (Alert "먼저 사용을 시작해주세요.")
   else if (0 <? List.length (echoMessages st))%nat
   then
     let messageToSpeak :=
       nth_error (echoMessages st) (currentEchoIndex st) in
     emit (Echo messageToSpeak) ;;
     setCurrentEchoIndex
       (fun prevIndex => (prevIndex + 1) mod List.length (echoMessages st))
   else ret tt)%act.

Definition stopSpeech : Handler unit :=
  (st <- get ;;
   if isSDKInitialized st then emit StopSpeech else ret tt)%act.

Definition resetEchoIndex : Handler unit :=
  setCurrentEchoIndex (fun _ => 0).

(** The start button: [disabled={isSDKInitialized}]. *)
Definition startDisabled (st : State) : bool := isSDKInitialized st.

(** The widget and the handlers waiting at an [await]. *)
Record World : Type := mkWorld {
  widget : State;
  inflight : list Task
}.

Definition initialWorld (echoMessagesData : list string) : World :=
  mkWorld (initialState echoMessagesData) [].

Inductive Event : Type :=
| Call_startSDK
| Call_stopSDK
| Call_playNextEcho
| Call_stopSpeech
| Call_resetEchoIndex
| StatusEvent (s : string)
| ChatEvent (chat_type : string)
| Settle (i : nat) (rejected : option string).

(** Run a handler that may stop at an [await]. *)
Definition spawn (h : Handler (option Task)) (w : World)
  : World * list Effect :=
  match h (widget w) with
  | (Returned (Some t), st, effs) =>
      (mkWorld st (inflight w ++ [t])%list, effs)
  | (_, st, effs) => (mkWorld st (inflight w), effs)
  end.

Definition call (h : Handler unit) (w : World) : World * list Effect :=
  match h (widget w) with
  | (_, st, effs) => (mkWorld st (inflight w), effs)
  end.

Definition resume (t : Task) (rejected : option string)
  : Handler (option Task) :=
  match t with
  | StartSDK_awaitInit => startSDK_afterInit rejected
  | StopSDK_awaitInit => stopSDK_afterInit rejected
  end.

Definition step (ev : Event) (w : World) : World * list Effect :=
  match ev with
  | Call_startSDK => spawn startSDK w
  | Call_stopSDK => spawn stopSDK w
  | Call_playNextEcho => call playNextEcho w
  | Call_stopSpeech => call stopSpeech w
  | Call_resetEchoIndex => call resetEchoIndex w
  | StatusEvent s => call (onStatus s) w
  | ChatEvent t => call (onChat t) w
  | Settle i rejected =>
      match nth_error (inflight w) i with
      | Some t =>
          spawn (resume t rejected)
                (mkWorld (widget w) (removeAt i (inflight w)))
      | None => (w, [])
      end
  end.

Definition run (evs : list Event) (w : World) : World :=
  fold_left (fun w ev => fst (step ev w)) evs w.

(** Every effect of a sequence of events, in order. *)
Fixpoint trace (evs : list Event) (w : World) : list Effect :=
  match evs with
  | [] => []
  | ev :: rest => (snd (step ev w) ++ trace rest (fst (step ev w)))%list
  end.

(** What the component renders of the current line, the line itself or
    [없음], and whether the button of [playNextEcho] is disabled. *)
Definition currentLineText (st : State) : string :=
  match nth_error (echoMessages st) (currentEchoIndex st) with
  | Some line => if truthy line then line else "없음"
  | None => "없음"
  end.

Definition playDisabled (st : State) : bool :=
  negb (isSDKInitialized st) || isAvatarSpeaking st
  || (List.length (echoMessages st) =? 0)%nat.

End Component.

End KlleonCyclic.

(** *** The second revision: [isInitializing], and a cursor that stops *)

Module KlleonGuarded.
Import KlleonChat.

Record State : Type := mkState {
  isAvatarSpeaking : bool;
  status : string;
  isSDKInitialized : bool;
  isInitializing : bool;
  echoMessages : list string;
  currentEchoIndex : nat
}.

Definition initialState (echoMessagesData : list string) : State :=
  mkState false "IDLE" false false echoMessagesData 0.

(** [startSDK] waiting at one of its two [await]s. *)
Inductive Task : Type :=
| StartSDK_awaitTimer
| StartSDK_awaitInit.

Definition Handler : Type -> Type := Act State Effect.

Definition setIsAvatarSpeaking (b : bool) : Handler unit :=
  modify (fun st => mkState b (status st) (isSDKInitialized st)
                            (isInitializing st) (echoMessages st)
                            (currentEchoIndex st)).

Definition setStatus (s : string) : Handler unit :=
  modify (fun st => mkState (isAvatarSpeaking st) s (isSDKInitialized st)
                            (isInitializing st) (echoMessages st)
                            (currentEchoIndex st)).

Definition setIsSDKInitialized (b : bool) : Handler unit :=
  modify (fun st => mkState (isAvatarSpeaking st) (status st) b
                            (isInitializing st) (echoMessages st)
                            (currentEchoIndex st)).

Definition setIsInitializing (b : bool) : Handler unit :=
  modify (fun st => mkState (isAvatarSpeaking st) (status st)
                            (isSDKInitialized st) b (echoMessages st)
                            (currentEchoIndex st)).

Definition setCurrentEchoIndex (i : nat) : Handler unit :=
  modify (fun st => mkState (isAvatarSpeaking st) (status st)
                            (isSDKInitialized st) (isInitializing st)
                            (echoMessages st) i).

Section Component.
Variable env : Env.

Definition onStatus (s : string) : Handler unit :=
  (emit (ConsoleLog ["Status Event:"; s]) ;;
   setStatus s ;;
   if String.eqb s "VIDEO_CAN_PLAY"
   then emit (ConsoleLog ["아바타 영상 재생 준비 완료!"])
   else ret tt)%act.

Definition onChat (chat_type : string) : Handler unit :=
  (emit (ConsoleLog ["SDK Chat Event:"; chat_type]) ;;
   (if String.eqb chat_type "PREPARING_RESPONSE"
    then setIsAvatarSpeaking true else ret tt) ;;
   (if String.eqb chat_type "RESPONSE_IS_ENDED"
    then setIsAvatarSpeaking false else ret tt))%act.

(** The [catch] and the [finally] of [startSDK]. *)
Definition startSDK_catch (error : string) : Handler unit :=
  (emit (ConsoleError ["SDK 초기화 실패:"; error]) ;;
   setStatus "IDLE")%act.

Definition startSDK_finally : Handler unit := setIsInitializing false.

(** [startSDK] up to [await new Promise(... setTimeout(resolve, 100))]. *)
Definition startSDK : Handler (option Task) :=
  (st <- get ;;
   if isInitializing st || isSDKInitialized st then ret None
   else
     setIsInitializing true ;;
     emit Destroy ;;
     emit (SetTimeout 100) ;;
     ret (Some StartSDK_awaitTimer))%act.

(** From the timer to [await KlleonChat.init(...)], or to the end when
    the environment check throws: the [finally] runs when the function
    ends, not when it waits.  The object logged with
    ["SDK 초기화 시작..."] is left out. *)
Definition startSDK_afterTimer : Handler (option Task) :=
  (next <- tryCatch
             (emit OnStatusEvent ;;
              emit OnChatEvent ;;
              if negb (truthyOpt (SDK_KEY env))
                 || negb (truthyOpt (AVATAR_ID env))
              then throw "API 키 또는 아바타 ID가 설정되지 않았습니다."
              else
                emit (ConsoleLog ["SDK 초기화 시작..."]) ;;
                emit (Init (mkInitOption (SDK_KEY env) (AVATAR_ID env))) ;;
                ret (Some StartSDK_awaitInit))
             (fun error => startSDK_catch error ;; ret None) ;;
   match next with
   | Some t => ret (Some t)
   | None => startSDK_finally ;; ret None
   end)%act.

(** After [init] has settled. *)
Definition startSDK_afterInit (rejected : option string)
  : Handler (option Task) :=
  (tryCatch
     (match rejected with
      | Some error => throw error
      | None =>
          setIsSDKInitialized true ;;
          emit (ConsoleLog ["SDK 초기화 완료"])
      end)
     startSDK_catch ;;
   startSDK_finally ;;
   ret None)%act.

(** [stopSDK]; with vendor calls that return normally its [catch] is
    never entered. *)
Definition stopSDK : Handler unit :=
  (st <- get ;;
   if negb (isSDKInitialized st) then ret tt
   else
     emit StopSpeech ;;
     emit Destroy ;;
     setIsSDKInitialized false ;;
     setStatus "IDLE" ;;
     setIsAvatarSpeaking false ;;
     emit (ConsoleLog ["SDK 종료 완료"]))%act.

Definition playNextEcho : Handler unit :=
  (st <- get ;;
   if negb (isSDKInitialized st)
   then emit (Alert "먼저 사용을 시작해주세요.")
   else if (0 <? List.length (echoMessages st))%nat
   then
     if (List.length (echoMessages st) <=? currentEchoIndex st)%nat
     then emit (Alert
       "모든 대사를 읽었습니다. '처음부터' 버튼을 눌러서 다시 시작하세요.")
     else
       let messageToSpeak :=
         nth_error (echoMessages st) (currentEchoIndex st) in
       emit (ConsoleLog ["Speaking:"; nullish messageToSpeak "undefined"]) ;;
       emit (Echo messageToSpeak) ;;
       setCurrentEchoIndex (currentEchoIndex st + 1)
   else ret tt)%act.

Definition stopSpeech : Handler unit :=
  (st <- get ;;
   if isSDKInitialized st then emit StopSpeech else ret tt)%act.

Definition resetEchoIndex : Handler unit := setCurrentEchoIndex 0.

(** What the component renders: the texts of the status panel and of
    the current line, and which buttons are disabled (colours and
    cursors follow the same conditions). *)
Record View : Type := mkView {
  statusText : string;
  sdkStateText : string;
  credentialsText : string;
  startDisabled : bool;
  startLabel : string;
  stopDisabled : bool;
  nextLineText : string;
  playDisabled : bool;
  playLabel : string;
  resetDisabled : bool;
  stopSpeechDisabled : bool
}.

Definition render (st : State) : View :=
  let finished :=
    (List.length (echoMessages st) <=? currentEchoIndex st)%nat in
  {| statusText :=
       "Status: " ++ status st ++ " "
         ++ (if isAvatarSpeaking st then "(발화중)" else EmptyString);
     sdkStateText :=
       "SDK 상태: "
         ++ (if isInitializing st then "초기화 중..."
             else if isSDKInitialized st then "사용 중" else "대기 중");
     credentialsText :=
       "API 키: "
         ++ (if truthyOpt (SDK_KEY env) then "설정됨" else "없음")
         ++ " | 아바타 ID: "
         ++ (if truthyOpt (AVATAR_ID env) then "설정됨" else "없음");
     startDisabled := isSDKInitialized st || isInitializing st;
     startLabel :=
       if isInitializing st then "초기화 중..." else "사용 시작";
     stopDisabled := negb (isSDKInitialized st) || isInitializing st;
     nextLineText :=
       match nth_error (echoMessages st) (currentEchoIndex st) with
       | Some line => if truthy line then line else "모든 대사 완료"
       | None => "모든 대사 완료"
       end;
     playDisabled :=
       negb (isSDKInitialized st) || isAvatarSpeaking st
       || (List.length (echoMessages st) =? 0)%nat
       || isInitializing st || finished;
     playLabel := if finished then "완료" else "대사 읽기";
     resetDisabled :=
       negb (isSDKInitialized st) || isAvatarSpeaking st
       || isInitializing st;
     stopSpeechDisabled :=
       negb (isSDKInitialized st) || negb (isAvatarSpeaking st) |}.

Record World : Type := mkWorld {
  widget : State;
  inflight : list Task
}.

Definition initialWorld (echoMessagesData : list string) : World :=
  mkWorld (initialState echoMessagesData) [].

Inductive Event : Type :=
| Call_startSDK
| Call_stopSDK
| Call_playNextEcho
| Call_stopSpeech
| Call_resetEchoIndex
| StatusEvent (s : string)
| ChatEvent (chat_type : string)
| Settle (i : nat) (rejected : option string).

Definition spawn (h : Handler (option Task)) (w : World)
  : World * list Effect :=
  match h (widget w) with
  | (Returned (Some t), st, effs) =>
      (mkWorld st (inflight w ++ [t])%list, effs)
  | (_, st, effs) => (mkWorld st (inflight w), effs)
  end.

Definition call (h : Handler unit) (w : World) : World * list Effect :=
  match h (widget w) with
  | (_, st, effs) => (mkWorld st (inflight w), effs)
  end.

(** The timer always fires; only [init] can reject. *)
Definition resume (t : Task) (rejected : option string)
  : Handler (option Task) :=
  match t with
  | StartSDK_awaitTimer => startSDK_afterTimer
  | StartSDK_awaitInit => startSDK_afterInit rejected
  end.

Definition step (ev : Event) (w : World) : World * list Effect :=
  match ev with
  | Call_startSDK => spawn startSDK w
  | Call_stopSDK => call stopSDK w
  | Call_playNextEcho => call playNextEcho w
  | Call_stopSpeech => call stopSpeech w
  | Call_resetEchoIndex => call resetEchoIndex w
  | StatusEvent s => call (onStatus s) w
  | ChatEvent t => call (onChat t) w
  | Settle i rejected =>
      match nth_error (inflight w) i with
      | Some t =>
          spawn (resume t rejected)
                (mkWorld (widget w) (removeAt i (inflight w)))
      | None => (w, [])
      end
  end.

Definition run (evs : list Event) (w : World) : World :=
  fold_left (fun w ev => fst (step ev w)) evs w.

(** Every effect of a sequence of events, in order. *)
Fixpoint trace (evs : list Event) (w : World) : list Effect :=
  match evs with
  | [] => []
  | ev :: rest => (snd (step ev w) ++ trace rest (fst (step ev w)))%list
  end.

(** One [startSDK] at most is waiting at an [await], exactly when
    [isInitializing] is set, and then the SDK is not initialized. *)
Definition oneStartAtMost (w : World) : Prop :=
  (inflight w = [] /\ isInitializing (widget w) = false) \/
  (exists t, inflight w = [t] /\
             isInitializing (widget w) = true /\
             isSDKInitialized (widget w) = false).

(** What reaches the user of the widget: an [alert], or a change of
    what is rendered. *)
Definition userVisible (before after : State) (effs : list Effect)
  : Prop :=
  (exists msg, In (Alert msg) effs) \/ render after <> render before.

(** The cleanup of the effect registered with [[isSDKInitialized]] as
    its dependency: it reads the [isSDKInitialized] of the render that
    registered it. *)
Definition cleanup (isSDKInitialized_captured : bool) : Handler unit :=
  (if isSDKInitialized_captured
   then
     emit Destroy ;;
     emit (ConsoleLog ["컴포넌트 언마운트: 세션 정리 완료"])
   else ret tt)%act.

(** Unmounting: the cleanup registered by the last render runs, and the
    last render registered one for the current value of the
    dependency. *)
Definition unmount (w : World) : list Effect :=
  effectsOf (cleanup (isSDKInitialized (widget w)) (widget w)).

End Component.

End KlleonGuarded.

(** ** Sample data *)

(** Concrete inputs at which the properties below are instantiated; the
    scores are natural numbers here. *)
Module Samples.

Definition speechEnv : Azure.Env :=
  Azure.mkEnv (Some "subscription-key") (Some "eastus").

Definition speechEnvNoKey : Azure.Env :=
  Azure.mkEnv None (Some "eastus").

Definition scored (accuracy fluency prosody : nat)
  : Azure.PronunciationAssessmentResult nat :=
  Azure.mkPAResult (Some accuracy) (Some fluency) (Some prosody) None.

Definition hello : Azure.SpeechRecognitionResult nat :=
  Azure.mkResult Azure.RecognizedSpeech "hello" (scored 90 80 70).

Definition world : Azure.SpeechRecognitionResult nat :=
  Azure.mkResult Azure.RecognizedSpeech "world" (scored 60 50 40).

Definition hi : Azure.SpeechRecognitionResult nat :=
  Azure.mkResult Azure.RecognizedSpeech "hi" (scored 30 20 10).

Definition silence : Azure.SpeechRecognitionResult nat :=
  Azure.mkResult Azure.NoMatch EmptyString (Azure.mkPAResult None None None None).

(** A component that is listening with recognizer 0 and the given
    buffer. *)
Definition listeningWith (buffer : list (Azure.SpeechRecognitionResult nat))
  : Azure.State nat :=
  Azure.mkState EmptyString true (Some 0) buffer 1.

Definition avatarEnv : KlleonChat.Env :=
  KlleonChat.mkEnv (Some "sdk-key") (Some "avatar-1").

Definition avatarEnvNoKey : KlleonChat.Env :=
  KlleonChat.mkEnv None (Some "avatar-1").

Definition lines : list string := ["Hello!"; "How are you today?"].

(** The SDK is started, [init] resolves, and one line is spoken. *)
Definition cyclicSession : list KlleonCyclic.Event :=
  [KlleonCyclic.Call_startSDK; KlleonCyclic.Settle 0 None;
   KlleonCyclic.Call_playNextEcho].

(** The SDK is started, the timer fires, [init] resolves, and both lines
    are spoken. *)
Definition guardedSession : list KlleonGuarded.Event :=
  [KlleonGuarded.Call_startSDK; KlleonGuarded.Settle 0 None;
   KlleonGuarded.Settle 0 None; KlleonGuarded.Call_playNextEcho;
   KlleonGuarded.Call_playNextEcho].

(** A listening session in which nothing, then "hi", then "hello" is
    recognized. *)
Definition recognizedInSession : list (Azure.SpeechRecognitionResult nat) :=
  [silence; hi; hello].

(** A widget whose SDK is initialized, at the given line. *)
Definition cyclicReady (i : nat) : KlleonCyclic.State :=
  KlleonCyclic.mkState false "VIDEO_CAN_PLAY" true lines i.

Definition guardedReady (i : nat) : KlleonGuarded.State :=
  KlleonGuarded.mkState false "VIDEO_CAN_PLAY" true false lines i.

End Samples.

(** ** Proof steps *)

(** Brings both sides of an equation between concatenations to the same
    right-nested form, with the rewriting rules of [string_append]. *)
Ltac string_assoc :=
  repeat first [progress autorewrite with string_append | progress simpl];
  reflexivity.

(** Case analysis on every test of a conditional in the goal. *)
Ltac split_conditions :=
  repeat match goal with
         | |- context [if ?c then _ else _] => destruct c eqn:?; simpl
         end.

(** Runs the handlers of an event of the avatar widget on the state at
    hand. *)
Ltac guarded_handlers :=
  unfold KlleonGuarded.spawn, KlleonGuarded.call, KlleonGuarded.resume,
    KlleonGuarded.startSDK, KlleonGuarded.startSDK_afterTimer,
    KlleonGuarded.startSDK_afterInit, KlleonGuarded.stopSDK,
    KlleonGuarded.playNextEcho, KlleonGuarded.stopSpeech,
    KlleonGuarded.onStatus, KlleonGuarded.onChat, bind, tryCatch, get;
  simpl.

Ltac cyclic_handlers :=
  unfold KlleonCyclic.spawn, KlleonCyclic.call, KlleonCyclic.resume,
    KlleonCyclic.startSDK, KlleonCyclic.startSDK_afterInit,
    KlleonCyclic.stopSDK, KlleonCyclic.stopSDK_afterInit,
    KlleonCyclic.playNextEcho, KlleonCyclic.stopSpeech,
    KlleonCyclic.onStatus, KlleonCyclic.onChat, bind, tryCatch, get;
  simpl.

(** * Properties *)

(** ** The monad *)

Lemma bind_run {St E A B} (m : Act St E A) (k : A -> Act St E B) (s : St) :
  bind m k s =
  match m s with
  | (Returned a, s1, e1) =>
      match k a s1 with (r, s2, e2) => (r, s2, (e1 ++ e2)%list) end
  | (Thrown msg, s1, e1) => (Thrown msg, s1, e1)
  end.
Proof. reflexivity. Qed.

(** ** String concatenation *)

Lemma append_empty_r (s : string) : s ++ EmptyString = s.
Proof. induction s as [|c s IH]; simpl; [reflexivity | now rewrite IH]. Qed.

Lemma append_assoc (s t u : string) : (s ++ t) ++ u = s ++ (t ++ u).
Proof. induction s as [|c s IH]; simpl; [reflexivity | now rewrite IH]. Qed.

Create Rewrite HintDb string_append.
#[local] Hint Rewrite append_assoc append_empty_r : string_append.

(** ** The speech widget *)

Section AzureFacts.

Variable Num : Type.
Variable numToString : Num -> string.
Variable env : Azure.Env.
Variable prosodyIsMethod : bool.

Local Abbreviation Result := (Azure.SpeechRecognitionResult Num).
Local Abbreviation State := (Azure.State Num).
Local Abbreviation isCandidate := (@Azure.isCandidate Num).
Local Abbreviation longerOrLater := (@Azure.longerOrLater Num).
Local Abbreviation finalResult := (@Azure.finalResult Num).
Local Abbreviation report := (Azure.report numToString).
Local Abbreviation processBufferedResults :=
  (Azure.processBufferedResults numToString).
Local Abbreviation onStopped := (Azure.onStopped numToString).
Local Abbreviation startMic := (@Azure.startMic Num env prosodyIsMethod).
Local Abbreviation handle := (Azure.handle numToString env prosodyIsMethod).
Local Abbreviation run := (Azure.run numToString env prosodyIsMethod).
Local Abbreviation len := (@Azure.textLength Num).
Local Abbreviation Event := (Azure.Event Num).
Local Abbreviation builtSpeechConfig := (Azure.builtSpeechConfig env).
Local Abbreviation credentialsMissing := (Azure.credentialsMissing env).
Local Abbreviation unscriptedAssessment :=
  (Azure.mkPAConfig EmptyString Azure.HundredMark Azure.Phoneme false true).

(** *** The reduction of [processBufferedResults] *)

Lemma longerOrLater_cases (a b : Result) :
  (len a <= len b /\ longerOrLater a b = b) \/
  (len b < len a /\ longerOrLater a b = a).
Proof.
  unfold Azure.longerOrLater.
  destruct (Nat.leb_spec (len a) (len b)); [left | right]; split; auto.
Qed.

(** The accumulator is one of the elements and is as long as any. *)
Lemma fold_longest (l : list Result) : forall a,
  In (fold_left longerOrLater l a) (a :: l) /\
  forall u, In u (a :: l) -> len u <= len (fold_left longerOrLater l a).
Proof.
  induction l as [|b l IH]; intros a; simpl.
  - split; [now left | intros u [->|[]]; lia].
  - destruct (IH (longerOrLater a b)) as [Hin Hmax].
    assert (Ha : len a <= len (longerOrLater a b))
      by (destruct (longerOrLater_cases a b) as [[? ->]|[? ->]]; lia).
    assert (Hb : len b <= len (longerOrLater a b))
      by (destruct (longerOrLater_cases a b) as [[? ->]|[? ->]]; lia).
    split.
    + destruct Hin as [Hin|Hin]; [|now right; right].
      rewrite <- Hin.
      destruct (longerOrLater_cases a b) as [[_ ->]|[_ ->]]; auto.
    + intros u [->|[->|Hu]].
      * etransitivity; [exact Ha | apply Hmax; now left].
      * etransitivity; [exact Hb | apply Hmax; now left].
      * apply Hmax; now right.
Qed.

(** Strictly shorter elements never replace the accumulator. *)
Lemma fold_shorter_tail (l : list Result) : forall a,
  Forall (fun u => len u < len a) l -> fold_left longerOrLater l a = a.
Proof.
  induction l as [|b l IH]; intros a H; simpl; [reflexivity|].
  inversion H as [|? ? Hb Hl]; subst.
  destruct (longerOrLater_cases a b) as [[Hle _]|[_ ->]]; [lia|].
  now apply IH.
Qed.

(** An element at least as long as everything before it replaces the
    accumulator. *)
Lemma fold_reaches (l : list Result) : forall a x,
  len a <= len x -> Forall (fun u => len u <= len x) l ->
  fold_left longerOrLater (l ++ [x]) a = x.
Proof.
  intros a x Ha Hl.
  rewrite fold_left_app; simpl.
  destruct (fold_longest l a) as [Hin _].
  assert (Hle : len (fold_left longerOrLater l a) <= len x).
  { destruct Hin as [<-|Hin]; [exact Ha|].
    rewrite Forall_forall in Hl. now apply Hl. }
  destruct (longerOrLater_cases (fold_left longerOrLater l a) x)
    as [[_ ->]|[Hlt _]]; [reflexivity | lia].
Qed.

Lemma filter_all_candidates (l : list Result) :
  Forall (fun u => isCandidate u = true) l -> filter isCandidate l = l.
Proof.
  induction 1 as [|u l Hu _ IH]; simpl; [reflexivity|].
  now rewrite Hu, IH.
Qed.

Lemma filter_no_candidates (l : list Result) :
  (forall u, In u l -> isCandidate u = false) -> filter isCandidate l = [].
Proof.
  induction l as [|u l IH]; intros H; simpl; [reflexivity|].
  rewrite (H u) by now left.
  apply IH. intros v Hv. apply H. now right.
Qed.

(** *** What [append] and the loop over the words write *)

Lemma forEach_words (ws : list (Azure.WordDetail Num)) :
  forall (i : nat) (st : State),
    Js.forEachFrom i ws
      (fun w idx =>
         Azure.append
           (natToString (idx + 1) ++ ". " ++ Azure.Word w ++ "  acc="
              ++ Azure.showScore numToString (Azure.AccuracyScore w))) st
    = (Returned tt,
       Azure.mkState (Azure.log st ++ Azure.wordLines numToString i ws)
                     (Azure.listening st) (Azure.recognizerRef st)
                     (Azure.resultsRef st) (Azure.created st),
       []).
Proof.
  induction ws as [|w ws IH]; intros i st; simpl.
  - unfold ret. destruct st; simpl. now rewrite append_empty_r.
  - rewrite bind_run. unfold Azure.append at 1, Azure.setLog at 1, modify.
    rewrite IH. simpl. do 2 f_equal. f_equal. string_assoc.
Qed.

Lemma processBufferedResults_some (st : State) (sel : Result) :
  finalResult (Azure.resultsRef st) = Some sel ->
  processBufferedResults st
  = (Returned tt,
     Azure.mkState (Azure.log st ++ report sel) (Azure.listening st)
                   (Azure.recognizerRef st) [] (Azure.created st),
     []).
Proof.
  intros Hsel. unfold Azure.processBufferedResults.
  rewrite bind_run. unfold get at 1.
  unfold Azure.finalResult in Hsel. rewrite Hsel.
  destruct (filter isCandidate (Azure.resultsRef st)) as [|c cs];
    [discriminate Hsel|]. cbn [List.length Nat.eqb].
  rewrite bind_run. unfold Azure.append at 1, Azure.setLog at 1, modify at 1.
  rewrite bind_run. unfold Azure.append at 1, Azure.setLog at 1, modify at 1.
  rewrite bind_run. unfold forEach. rewrite forEach_words.
  unfold Azure.set_resultsRef, modify. cbn [Azure.log Azure.listening
    Azure.recognizerRef Azure.resultsRef Azure.created app].
  do 2 f_equal. f_equal. unfold Azure.report. string_assoc.
Qed.

Lemma processBufferedResults_none (st : State) :
  finalResult (Azure.resultsRef st) = None ->
  processBufferedResults st
  = (Returned tt,
     Azure.mkState (Azure.log st ++ "No speech captured." ++ LF)
                   (Azure.listening st) (Azure.recognizerRef st)
                   (Azure.resultsRef st) (Azure.created st),
     []).
Proof.
  intros Hsel. unfold Azure.processBufferedResults.
  rewrite bind_run. unfold get at 1.
  unfold Azure.finalResult in Hsel.
  destruct (filter isCandidate (Azure.resultsRef st)) as [|c cs];
    [reflexivity | discriminate Hsel].
Qed.

(** *** The stop callback *)

Lemma onStopped_some (st : State) (r : nat) (sel : Result) :
  finalResult (Azure.resultsRef st) = Some sel ->
  onStopped r st
  = (Returned tt,
     Azure.mkState
       (Azure.log st ++ "Recognition stopped by user." ++ LF ++ report sel)
       false None [] (Azure.created st),
     [Azure.Close r]).
Proof.
  intros Hsel. unfold Azure.onStopped.
  rewrite bind_run. unfold Azure.append at 1, Azure.setLog at 1, modify at 1.
  rewrite bind_run, processBufferedResults_some with (sel := sel)
    by exact Hsel.
  cbn [Azure.log Azure.listening Azure.recognizerRef Azure.resultsRef
       Azure.created app].
  unfold bind, emit, Azure.set_recognizerRef, Azure.setListening, modify.
  cbn [Azure.log Azure.listening Azure.recognizerRef Azure.resultsRef
       Azure.created app].
  do 2 f_equal. f_equal. string_assoc.
Qed.

Lemma onStopped_none (st : State) (r : nat) :
  finalResult (Azure.resultsRef st) = None ->
  onStopped r st
  = (Returned tt,
     Azure.mkState
       (Azure.log st ++ "Recognition stopped by user." ++ LF
          ++ "No speech captured." ++ LF)
       false None (Azure.resultsRef st) (Azure.created st),
     [Azure.Close r]).
Proof.
  intros Hsel. unfold Azure.onStopped.
  rewrite bind_run. unfold Azure.append at 1, Azure.setLog at 1, modify at 1.
  rewrite bind_run, processBufferedResults_none by exact Hsel.
  cbn [Azure.log Azure.listening Azure.recognizerRef Azure.resultsRef
       Azure.created app].
  unfold bind, emit, Azure.set_recognizerRef, Azure.setListening, modify.
  cbn [Azure.log Azure.listening Azure.recognizerRef Azure.resultsRef
       Azure.created app].
  do 2 f_equal. f_equal. string_assoc.
Qed.

(** C1.  For every non-empty buffer of recognized utterances, the stop
    callback of [stopMic] picks one utterance of the buffer whose text is
    at least as long as the text of every buffered utterance, and writes
    the report of that utterance: its text, then its accuracy, fluency
    and prosody scores.  The buffer is emptied, the recognizer closed and
    forgotten, and [listening] becomes false. *)
Theorem stop_reports_longest_utterance (st : State) (r : nat) :
  Azure.resultsRef st <> [] ->
  Forall (fun u => isCandidate u = true) (Azure.resultsRef st) ->
  exists sel : Result,
    finalResult (Azure.resultsRef st) = Some sel /\
    In sel (Azure.resultsRef st) /\
    (forall u, In u (Azure.resultsRef st) -> len u <= len sel) /\
    onStopped r st
    = (Returned tt,
       Azure.mkState
         (Azure.log st ++ "Recognition stopped by user." ++ LF
            ++ LF ++ "=== FINAL (Unscripted) ===" ++ LF
            ++ "Text: " ++ Azure.text sel ++ LF
            ++ "Accuracy="
            ++ Azure.showScore numToString
                 (Azure.accuracyScore (Azure.fromResult sel))
            ++ " | Fluency="
            ++ Azure.showScore numToString
                 (Azure.fluencyScore (Azure.fromResult sel))
            ++ " | Prosody="
            ++ Azure.showScore numToString
                 (Azure.prosodyScore (Azure.fromResult sel))
            ++ LF
            ++ Azure.wordLines numToString 0
                 (nullish (Azure.detailWords (Azure.fromResult sel)) []))
         false None [] (Azure.created st),
       [Azure.Close r]).
Proof.
  intros Hne Hall.
  destruct (Azure.resultsRef st) as [|c cs] eqn:Hbuf; [congruence|].
  exists (fold_left longerOrLater cs c).
  assert (Hsel : finalResult (Azure.resultsRef st)
                 = Some (fold_left longerOrLater cs c)).
  { unfold Azure.finalResult. rewrite Hbuf.
    now rewrite (filter_all_candidates _ Hall). }
  destruct (fold_longest cs c) as [Hin Hmax].
  rewrite Hbuf in Hsel at 1.
  split; [exact Hsel|]. split; [exact Hin|]. split; [exact Hmax|].
  rewrite <- Hbuf in Hsel.
  rewrite (onStopped_some _ r _ Hsel).
  unfold Azure.report. string_assoc.
Qed.

(** C6.  When the buffer holds no recognized utterance, the stop callback
    writes ["No speech captured."] after its own line and nothing else:
    no utterance is chosen and no score line is written. *)
Theorem stop_without_speech (st : State) (r : nat) :
  (forall u, In u (Azure.resultsRef st) -> isCandidate u = false) ->
  finalResult (Azure.resultsRef st) = None /\
  onStopped r st
  = (Returned tt,
     Azure.mkState
       (Azure.log st ++ "Recognition stopped by user." ++ LF
          ++ "No speech captured." ++ LF)
       false None (Azure.resultsRef st) (Azure.created st),
     [Azure.Close r]).
Proof.
  intros Hnone.
  assert (Hsel : finalResult (Azure.resultsRef st) = None).
  { unfold Azure.finalResult. now rewrite filter_no_candidates. }
  split; [exact Hsel|].
  now rewrite (onStopped_none _ r Hsel).
Qed.

(** C9.  Among the utterances of maximal text length the one recognized
    last is chosen: when the buffer holds an utterance that is at least as
    long as every utterance before it and strictly longer than every
    utterance after it, [processBufferedResults] reports that one, whatever
    ties there are before it. *)
Theorem ties_go_to_the_latest
        (st : State) (before after : list Result) (x : Result) :
  Azure.resultsRef st = (before ++ x :: after)%list ->
  Forall (fun u => isCandidate u = true) (before ++ x :: after) ->
  Forall (fun u => len u <= len x) before ->
  Forall (fun u => len u < len x) after ->
  finalResult (Azure.resultsRef st) = Some x /\
  processBufferedResults st
  = (Returned tt,
     Azure.mkState (Azure.log st ++ report x) (Azure.listening st)
                   (Azure.recognizerRef st) [] (Azure.created st),
     []).
Proof.
  intros Hbuf Hall Hbefore Hafter.
  assert (Hsel : finalResult (Azure.resultsRef st) = Some x).
  { rewrite Hbuf.
    unfold Azure.finalResult. rewrite (filter_all_candidates _ Hall).
    destruct before as [|b bs]; simpl.
    - now rewrite fold_shorter_tail.
    - inversion Hbefore as [|? ? Hb Hbs]; subst.
      change (x :: after) with ([x] ++ after)%list.
      rewrite app_assoc, fold_left_app, fold_reaches by assumption.
      now rewrite fold_shorter_tail. }
  split; [exact Hsel | now apply processBufferedResults_some].
Qed.

(** *** [startMic] *)

Lemma startMic_denied (st : State) :
  startMic false st
  = (Returned tt, st,
     [Azure.GetUserMedia; Azure.Alert "마이크 권한을 허용해주세요."]).
Proof. reflexivity. Qed.

Lemma startMic_missing (st : State) :
  credentialsMissing = true ->
  startMic true st
  = (Returned tt,
     Azure.mkState
       ("Error: VITE_AZURE_SPEECH_KEY/REGION 환경변수를 확인하세요." ++ LF)
       (Azure.listening st) (Azure.recognizerRef st) [] (Azure.created st),
     [Azure.GetUserMedia]).
Proof.
  unfold Azure.credentialsMissing. intros Hmiss.
  unfold Azure.startMic, bind, tryCatch, Azure.ensureMicPermission. simpl.
  rewrite Hmiss. reflexivity.
Qed.

Lemma startMic_started (st : State) :
  credentialsMissing = false ->
  startMic true st
  = (Returned tt,
     Azure.mkState EmptyString (Azure.listening st) (Some (Azure.created st)) []
                   (S (Azure.created st)),
     Azure.GetUserMedia
       :: ((if prosodyIsMethod then [Azure.Call_enableProsodyAssessment]
            else [])
           ++ [Azure.New_SpeechRecognizer (Azure.created st)
                 builtSpeechConfig Azure.DefaultMicrophoneInput;
               Azure.ApplyTo unscriptedAssessment (Azure.created st);
               Azure.StartContinuousRecognitionAsync (Azure.created st)])%list).
Proof.
  unfold Azure.credentialsMissing. intros Hok.
  unfold Azure.startMic, bind, tryCatch, Azure.ensureMicPermission. simpl.
  rewrite Hok. destruct prosodyIsMethod; reflexivity.
Qed.

(** C5.  With the permission granted and both credentials present,
    [startMic] builds the assessment configuration with the empty
    reference text, the hundred-mark grading system, phoneme granularity,
    miscue off and prosody switched on, applies it to the recognizer it
    has just created, and only then starts continuous recognition. *)
Theorem startMic_applies_unscripted_assessment (st : State) :
  truthyOpt (Azure.VITE_AZURE_SPEECH_KEY env) = true ->
  truthyOpt (Azure.VITE_AZURE_SPEECH_REGION env) = true ->
  exists before : list Azure.Effect,
    effectsOf (startMic true st)
    = (before
         ++ [Azure.ApplyTo
               {| Azure.referenceText := EmptyString;
                  Azure.gradingSystem := Azure.HundredMark;
                  Azure.granularity := Azure.Phoneme;
                  Azure.enableMiscue := false;
                  Azure.enableProsodyAssessment := true |}
               (Azure.created st);
             Azure.StartContinuousRecognitionAsync (Azure.created st)])%list
    /\ In (Azure.New_SpeechRecognizer (Azure.created st) builtSpeechConfig
            Azure.DefaultMicrophoneInput) before
    /\ (forall pa id, ~ In (Azure.ApplyTo pa id) before)
    /\ (forall id, ~ In (Azure.StartContinuousRecognitionAsync id) before).
Proof.
  intros Hkey Hregion.
  assert (Hok : credentialsMissing = false)
    by (unfold Azure.credentialsMissing; now rewrite Hkey, Hregion).
  rewrite (startMic_started st Hok). unfold effectsOf, snd.
  exists (Azure.GetUserMedia
            :: (if prosodyIsMethod
                then [Azure.Call_enableProsodyAssessment] else [])
            ++ [Azure.New_SpeechRecognizer (Azure.created st)
                  builtSpeechConfig Azure.DefaultMicrophoneInput])%list.
  destruct prosodyIsMethod; simpl; repeat split; auto;
    intros; intuition discriminate.
Qed.

(** C8.  When the permission request fails, [startMic] asks once, alerts
    the user and returns: the component is left as it was (no reset, no
    recognizer), and nothing but the request and the alert is done. *)
Theorem startMic_permission_denied (st : State) :
  startMic false st
  = (Returned tt, st,
     [Azure.GetUserMedia; Azure.Alert "마이크 권한을 허용해주세요."]).
Proof. exact (startMic_denied st). Qed.

(** *** The buffer along a run *)

(** A handler leaves the buffer alone, empties it, or (the recognized
    callback) pushes the utterance it was given. *)
Lemma handle_buffer (ev : Event) (st : State) :
  let after := Azure.resultsRef (stateOf (handle ev st)) in
  after = Azure.resultsRef st \/ after = [] \/
  exists u, ev = Azure.Recognized u /\ isCandidate u = true /\
            after = (Azure.resultsRef st ++ [u])%list.
Proof.
  destruct ev as [granted| | |u| | | |r| ]; cbn zeta;
    try (left; reflexivity).
  - destruct granted; [|left; reflexivity].
    right; left. unfold Azure.handle.
    destruct credentialsMissing eqn:Hc;
      [rewrite (startMic_missing st Hc) | rewrite (startMic_started st Hc)];
      reflexivity.
  - left. unfold Azure.handle, Azure.stopMic, bind, get, stateOf.
    now destruct (Azure.recognizerRef st).
  - unfold Azure.handle, Azure.onRecognized.
    destruct (isCandidate u) eqn:Hu; [|left; reflexivity].
    right; right. exists u. repeat split; auto.
  - unfold Azure.handle.
    destruct (finalResult (Azure.resultsRef st)) as [sel|] eqn:Hsel.
    + right; left. now rewrite (onStopped_some st r sel Hsel).
    + left. now rewrite (onStopped_none st r Hsel).
Qed.

(** Only recognized speech with a text is ever in the buffer. *)
Lemma buffer_holds_candidates (evs : list Event) : forall st : State,
  Forall (fun u => isCandidate u = true) (Azure.resultsRef st) ->
  Forall (fun u => isCandidate u = true) (Azure.resultsRef (run evs st)).
Proof.
  induction evs as [|ev evs IH]; intros st Hst; [exact Hst|].
  apply IH.
  destruct (handle_buffer ev st) as [->|[->|(u & _ & Hu & ->)]]; auto.
  apply Forall_app; auto.
Qed.

(** Whatever is in the buffer was there at the start or was recognized
    since. *)
Lemma buffer_origin (evs : list Event) : forall (st : State) u,
  In u (Azure.resultsRef (run evs st)) ->
  In u (Azure.resultsRef st) \/ In (Azure.Recognized u) evs.
Proof.
  induction evs as [|ev evs IH]; intros st u Hu; [now left|].
  destruct (IH _ _ Hu) as [Hin|Hin]; [|right; now right].
  destruct (handle_buffer ev st) as [Heq|[Heq|(v & -> & _ & Heq)]];
    cbn zeta in Heq; rewrite Heq in Hin.
  - now left.
  - destruct Hin.
  - apply in_app_or in Hin as [Hin|[->|[]]]; [now left|right; now left].
Qed.

(** C10.  A call of [startMic] that gets past the permission request
    empties the buffer, and when it starts recognition the log is empty
    as well; so an utterance that is in the buffer at any later time was
    recognized after that call. *)
Theorem startMic_starts_fresh (st : State) :
  Azure.resultsRef (stateOf (startMic true st)) = [] /\
  (forall id,
      In (Azure.StartContinuousRecognitionAsync id)
         (effectsOf (startMic true st)) ->
      Azure.log (stateOf (startMic true st)) = EmptyString) /\
  (forall (evs : list Event) u,
      In u (Azure.resultsRef (run evs (stateOf (startMic true st)))) ->
      In (Azure.Recognized u) evs).
Proof.
  assert (Hempty : Azure.resultsRef (stateOf (startMic true st)) = []).
  { destruct credentialsMissing eqn:Hc;
      [rewrite (startMic_missing st Hc) | rewrite (startMic_started st Hc)];
      reflexivity. }
  split; [exact Hempty|]. split.
  - intros id. destruct credentialsMissing eqn:Hc.
    + rewrite (startMic_missing st Hc). simpl. intuition discriminate.
    + now rewrite (startMic_started st Hc).
  - intros evs u Hu.
    destruct (buffer_origin evs _ u Hu) as [Hin|Hin]; [|exact Hin].
    rewrite Hempty in Hin. destruct Hin.
Qed.

End AzureFacts.

(** ** The avatar widget, klleon.tsx *)

Section KlleonCyclicFacts.
Import KlleonChat.
Variable env : Env.

Local Abbreviation State := KlleonCyclic.State.
Local Abbreviation World := KlleonCyclic.World.
Local Abbreviation Event := KlleonCyclic.Event.
Local Abbreviation step := (KlleonCyclic.step env).
Local Abbreviation run := (KlleonCyclic.run env).
Local Abbreviation cursor :=
  (fun w : World => KlleonCyclic.currentEchoIndex (KlleonCyclic.widget w)).
Local Abbreviation messages :=
  (fun w : World => KlleonCyclic.echoMessages (KlleonCyclic.widget w)).

(** What one event does to the list and to the cursor. *)
Lemma cyclic_step_cursor (ev : Event) (w : World) :
  messages (fst (step ev w)) = messages w /\
  (cursor (fst (step ev w)) = cursor w \/
   cursor (fst (step ev w)) = 0 \/
   (0 < List.length (messages w) /\
    cursor (fst (step ev w))
    = (cursor w + 1) mod List.length (messages w))).
Proof.
  destruct w as [st tasks].
  destruct ev as [| | | | |s|t|i rejected]; simpl;
    try (split; [reflexivity | left; reflexivity]).
  - unfold KlleonCyclic.call, KlleonCyclic.playNextEcho, bind, get. simpl.
    destruct (KlleonCyclic.isSDKInitialized st); simpl;
      [|split; [reflexivity | left; reflexivity]].
    destruct (Nat.ltb_spec 0 (List.length (KlleonCyclic.echoMessages st)));
      simpl; [|split; [reflexivity | left; reflexivity]].
    split; [reflexivity | right; right; split; auto].
  - unfold KlleonCyclic.call, KlleonCyclic.stopSpeech, bind, get. simpl.
    destruct (KlleonCyclic.isSDKInitialized st); simpl;
      split; auto.
  - split; [reflexivity | right; left; reflexivity].
  - unfold KlleonCyclic.call, KlleonCyclic.onStatus, bind. simpl.
    destruct (String.eqb s "VIDEO_CAN_PLAY"); simpl; split; auto.
  - unfold KlleonCyclic.call, KlleonCyclic.onChat, bind. simpl.
    destruct (String.eqb t "PREPARING_RESPONSE");
      destruct (String.eqb t "RESPONSE_IS_ENDED"); simpl; split; auto.
  - destruct (nth_error tasks i) as [[|]|]; simpl;
      destruct rejected; simpl; split; auto.
Qed.

Lemma cyclic_run_snoc (evs : list Event) (ev : Event) (w : World) :
  run (evs ++ [ev]) w = fst (step ev (run evs w)).
Proof. unfold KlleonCyclic.run. now rewrite fold_left_app. Qed.

(** From a world whose cursor is inside the list (or at zero), the list
    never changes and the cursor stays inside it. *)
Lemma cyclic_cursor_inside (w0 : World) (evs : list Event) :
  cursor w0 = 0 \/ cursor w0 < List.length (messages w0) ->
  messages (run evs w0) = messages w0 /\
  (cursor (run evs w0) = 0 \/
   cursor (run evs w0) < List.length (messages w0)).
Proof.
  intros Hstart.
  induction evs as [|ev evs IH] using rev_ind.
  - split; [reflexivity | exact Hstart].
  - rewrite cyclic_run_snoc. destruct IH as [Hm Hc].
    destruct (cyclic_step_cursor ev (run evs w0)) as [Hm' Hc'].
    rewrite Hm in Hm', Hc'. split; [exact Hm'|].
    destruct Hc' as [->|[->|[Hpos ->]]]; auto.
    right. apply Nat.mod_upper_bound. lia.
Qed.

(** The cursor after an event, in a state reached from such a world: where
    it was, one further, or zero. *)
Lemma cyclic_cursor_moves (w0 : World) (evs : list Event) (ev : Event) :
  cursor w0 = 0 \/ cursor w0 < List.length (messages w0) ->
  cursor (fst (step ev (run evs w0))) = cursor (run evs w0) \/
  cursor (fst (step ev (run evs w0))) = cursor (run evs w0) + 1 \/
  cursor (fst (step ev (run evs w0))) = 0.
Proof.
  intros Hstart.
  destruct (cyclic_cursor_inside w0 evs Hstart) as [Hm Hc].
  destruct (cyclic_step_cursor ev (run evs w0)) as [_ Hstep].
  rewrite Hm in Hstep.
  destruct Hstep as [->|[->|[Hpos ->]]]; auto.
  right.
  destruct (Nat.eq_dec (cursor (run evs w0) + 1) (List.length (messages w0)))
    as [Heq|Hne].
  - right. rewrite Heq. apply Nat.Div0.mod_same.
  - left. apply Nat.mod_small. lia.
Qed.

(** [startSDK] has no test of its own: whatever the state, it registers
    the two callbacks and calls [init]. *)
Lemma cyclic_startSDK_always_inits (st : State) :
  KlleonCyclic.startSDK env st
  = (Returned (Some KlleonCyclic.StartSDK_awaitInit), st,
     [OnStatusEvent; OnChatEvent;
      Init (mkInitOption (SDK_KEY env) (AVATAR_ID env))]).
Proof. reflexivity. Qed.

End KlleonCyclicFacts.

(** ** The avatar widget, second revision *)

Section KlleonGuardedFacts.
Import KlleonChat.
Variable env : Env.

Local Abbreviation State := KlleonGuarded.State.
Local Abbreviation World := KlleonGuarded.World.
Local Abbreviation Event := KlleonGuarded.Event.
Local Abbreviation step := (KlleonGuarded.step env).
Local Abbreviation run := (KlleonGuarded.run env).
Local Abbreviation widget := KlleonGuarded.widget.
Local Abbreviation inflight := KlleonGuarded.inflight.
Local Abbreviation cursor :=
  (fun w : World => KlleonGuarded.currentEchoIndex (KlleonGuarded.widget w)).
Local Abbreviation messages :=
  (fun w : World => KlleonGuarded.echoMessages (KlleonGuarded.widget w)).
Local Abbreviation keysMissing :=
  (negb (truthyOpt (SDK_KEY env)) || negb (truthyOpt (AVATAR_ID env))).

Lemma guarded_step_cursor (ev : Event) (w : World) :
  messages (fst (step ev w)) = messages w /\
  (cursor (fst (step ev w)) = cursor w \/
   cursor (fst (step ev w)) = 0 \/
   (cursor w < List.length (messages w) /\
    cursor (fst (step ev w)) = cursor w + 1)).
Proof.
  destruct w as [st tasks].
  destruct ev as [| | | | |s|t|i rejected]; simpl;
    try (split; [reflexivity | left; reflexivity]).
  - unfold KlleonGuarded.spawn, KlleonGuarded.startSDK, bind, get. simpl.
    destruct (KlleonGuarded.isInitializing st
              || KlleonGuarded.isSDKInitialized st); simpl; split; auto.
  - unfold KlleonGuarded.call, KlleonGuarded.stopSDK, bind, get. simpl.
    destruct (KlleonGuarded.isSDKInitialized st); simpl; split; auto.
  - unfold KlleonGuarded.call, KlleonGuarded.playNextEcho, bind, get. simpl.
    destruct (KlleonGuarded.isSDKInitialized st); simpl;
      [|split; [reflexivity | left; reflexivity]].
    destruct (Nat.ltb_spec 0 (List.length (KlleonGuarded.echoMessages st)));
      simpl; [|split; [reflexivity | left; reflexivity]].
    destruct (Nat.leb_spec (List.length (KlleonGuarded.echoMessages st))
                           (KlleonGuarded.currentEchoIndex st));
      simpl; [split; [reflexivity | left; reflexivity]|].
    split; [reflexivity | right; right; split; auto].
  - unfold KlleonGuarded.call, KlleonGuarded.stopSpeech, bind, get. simpl.
    destruct (KlleonGuarded.isSDKInitialized st); simpl; split; auto.
  - split; [reflexivity | right; left; reflexivity].
  - unfold KlleonGuarded.call, KlleonGuarded.onStatus, bind. simpl.
    destruct (String.eqb s "VIDEO_CAN_PLAY"); simpl; split; auto.
  - unfold KlleonGuarded.call, KlleonGuarded.onChat, bind. simpl.
    destruct (String.eqb t "PREPARING_RESPONSE");
      destruct (String.eqb t "RESPONSE_IS_ENDED"); simpl; split; auto.
  - destruct (nth_error tasks i) as [[|]|]; simpl;
      [ unfold KlleonGuarded.spawn, KlleonGuarded.startSDK_afterTimer,
          bind, tryCatch; simpl; destruct keysMissing; simpl
      | destruct rejected; simpl | ]; split; auto.
Qed.

Lemma guarded_run_snoc (evs : list Event) (ev : Event) (w : World) :
  run (evs ++ [ev]) w = fst (step ev (run evs w)).
Proof. unfold KlleonGuarded.run. now rewrite fold_left_app. Qed.

(** From a world whose cursor is not past the end of the list, the list
    never changes and the cursor never passes its end. *)
Lemma guarded_cursor_inside (w0 : World) (evs : list Event) :
  cursor w0 <= List.length (messages w0) ->
  messages (run evs w0) = messages w0 /\
  cursor (run evs w0) <= List.length (messages w0).
Proof.
  intros Hstart.
  induction evs as [|ev evs IH] using rev_ind.
  - split; [reflexivity | exact Hstart].
  - rewrite guarded_run_snoc. destruct IH as [Hm Hc].
    destruct (guarded_step_cursor ev (run evs w0)) as [Hm' Hc'].
    rewrite Hm in Hm', Hc'. split; [exact Hm'|].
    destruct Hc' as [->|[->|[Hlt ->]]]; lia.
Qed.

(** *** The guard of [startSDK] *)

Lemma guarded_startSDK_returns (st : State) :
  KlleonGuarded.isInitializing st || KlleonGuarded.isSDKInitialized st = true ->
  KlleonGuarded.startSDK st = (Returned None, st, []).
Proof.
  intros Hguard. unfold KlleonGuarded.startSDK, bind, get.
  now rewrite Hguard.
Qed.

Local Abbreviation oneStartAtMost := KlleonGuarded.oneStartAtMost.

(** An event keeps [oneStartAtMost]; and when it calls [init], the SDK
    was not initialized and the one handler waiting was at the timer, so
    that no [init] was pending. *)
Lemma guarded_step_guard (ev : Event) (w : World) :
  oneStartAtMost w ->
  oneStartAtMost (fst (step ev w)) /\
  (forall o, In (Init o) (snd (step ev w)) ->
             KlleonGuarded.isSDKInitialized (widget w) = false /\
             inflight w = [KlleonGuarded.StartSDK_awaitTimer]).
Proof.
  destruct w as [[speaking status initialized initializing msgs idx] tasks].
  unfold KlleonGuarded.oneStartAtMost. simpl.
  intros [[-> ->]|(t & -> & -> & ->)].
  - destruct ev as [| | | | |s|c|i rejected]; simpl;
      unfold KlleonGuarded.spawn, KlleonGuarded.call,
        KlleonGuarded.startSDK, KlleonGuarded.stopSDK,
        KlleonGuarded.playNextEcho, KlleonGuarded.stopSpeech,
        KlleonGuarded.onStatus, KlleonGuarded.onChat, bind, get; simpl;
      try (destruct i); simpl;
      split_conditions;
      (split; [ (left; split; reflexivity)
                || (right; eexists; repeat split; reflexivity)
              | intros o Hin; simpl in Hin; intuition discriminate ]).
  - destruct ev as [| | | | |s|c|i rejected]; simpl;
      unfold KlleonGuarded.spawn, KlleonGuarded.call,
        KlleonGuarded.startSDK, KlleonGuarded.stopSDK,
        KlleonGuarded.playNextEcho, KlleonGuarded.stopSpeech,
        KlleonGuarded.onStatus, KlleonGuarded.onChat, bind, get; simpl;
      try (destruct i as [|[|i]]; simpl;
           try (destruct t; simpl;
                unfold KlleonGuarded.startSDK_afterTimer,
                  KlleonGuarded.startSDK_afterInit, bind, tryCatch; simpl;
                try (destruct rejected; simpl)));
      split_conditions;
      (split; [ (left; split; reflexivity)
                || (right; eexists; repeat split; reflexivity)
              | intros o Hin; simpl in Hin;
                try (split; reflexivity); intuition discriminate ]).
Qed.

Lemma guarded_one_start (msgs : list string) (evs : list Event) :
  oneStartAtMost (run evs (KlleonGuarded.initialWorld msgs)).
Proof.
  induction evs as [|ev evs IH] using rev_ind.
  - left. split; reflexivity.
  - rewrite guarded_run_snoc. now apply guarded_step_guard.
Qed.

End KlleonGuardedFacts.

(** ** The claims about the speech widget at sample inputs *)

Lemma stop_reports_longest_utterance_witness :
  Azure.resultsRef (Samples.listeningWith [Samples.hi; Samples.hello])
  <> []
  /\ Forall (fun u => Azure.isCandidate u = true)
            (Azure.resultsRef (Samples.listeningWith [Samples.hi; Samples.hello]))
  /\ exists sel,
       Azure.finalResult [Samples.hi; Samples.hello] = Some sel
       /\ Azure.text sel = "hello"
       /\ Azure.log (stateOf (Azure.onStopped natToString 0
                      (Samples.listeningWith [Samples.hi; Samples.hello])))
          = "Recognition stopped by user." ++ LF ++ LF
              ++ "=== FINAL (Unscripted) ===" ++ LF ++ "Text: hello" ++ LF
              ++ "Accuracy=90 | Fluency=80 | Prosody=70" ++ LF.
Proof.
  assert (Hne : Azure.resultsRef
                  (Samples.listeningWith [Samples.hi; Samples.hello]) <> [])
    by discriminate.
  assert (Hall : Forall (fun u => Azure.isCandidate u = true)
                   (Azure.resultsRef
                      (Samples.listeningWith [Samples.hi; Samples.hello])))
    by (repeat constructor).
  split; [exact Hne|]. split; [exact Hall|].
  destruct (stop_reports_longest_utterance nat natToString
              (Samples.listeningWith [Samples.hi; Samples.hello]) 0 Hne Hall)
    as (sel & Hsel & _ & _ & Hrun).
  exists sel. split; [exact Hsel|].
  assert (Hwhich : sel = Samples.hello)
    by (vm_compute in Hsel; now injection Hsel).
  split; [now rewrite Hwhich|].
  rewrite Hrun, Hwhich. reflexivity.
Defined.

Lemma stop_without_speech_witness :
  (forall u, In u (Azure.resultsRef (Samples.listeningWith []))
             -> Azure.isCandidate u = false)
  /\ Azure.log (stateOf (Azure.onStopped natToString 0
                  (Samples.listeningWith [])))
     = "Recognition stopped by user." ++ LF ++ "No speech captured." ++ LF.
Proof.
  assert (Hnone : forall u,
             In u (Azure.resultsRef (Samples.listeningWith []))
             -> Azure.isCandidate u = false)
    by (intros u []).
  split; [exact Hnone|].
  destruct (stop_without_speech nat natToString
              (Samples.listeningWith []) 0 Hnone) as [_ Hrun].
  now rewrite Hrun.
Defined.

Lemma ties_go_to_the_latest_witness :
  Azure.textLength Samples.hello = Azure.textLength Samples.world
  /\ Azure.finalResult [Samples.hello; Samples.world; Samples.hi]
     = Some Samples.world
  /\ Azure.log (stateOf (Azure.processBufferedResults natToString
                  (Samples.listeningWith
                     [Samples.hello; Samples.world; Samples.hi])))
     = LF ++ "=== FINAL (Unscripted) ===" ++ LF ++ "Text: world" ++ LF
          ++ "Accuracy=60 | Fluency=50 | Prosody=40" ++ LF.
Proof.
  split; [reflexivity|].
  destruct (ties_go_to_the_latest nat natToString
              (Samples.listeningWith [Samples.hello; Samples.world; Samples.hi])
              [Samples.hello] [Samples.hi] Samples.world eq_refl)
    as [Hsel Hrun].
  - repeat constructor.
  - repeat constructor.
  - repeat constructor.
  - split; [exact Hsel|]. now rewrite Hrun.
Defined.

Lemma startMic_applies_unscripted_assessment_witness :
  truthyOpt (Azure.VITE_AZURE_SPEECH_KEY Samples.speechEnv) = true
  /\ truthyOpt (Azure.VITE_AZURE_SPEECH_REGION Samples.speechEnv) = true
  /\ exists before,
       effectsOf (Azure.startMic Samples.speechEnv false true
                    (@Azure.initialState nat))
       = (before
            ++ [Azure.ApplyTo (Azure.mkPAConfig EmptyString Azure.HundredMark
                                                Azure.Phoneme false true) 0;
                Azure.StartContinuousRecognitionAsync 0])%list
       /\ In (Azure.New_SpeechRecognizer 0
                (Azure.builtSpeechConfig Samples.speechEnv)
                Azure.DefaultMicrophoneInput) before.
Proof.
  split; [reflexivity|]. split; [reflexivity|].
  destruct (startMic_applies_unscripted_assessment nat Samples.speechEnv false
              (@Azure.initialState nat) eq_refl eq_refl)
    as (before & Heffects & Hnew & _).
  exists before. split; [exact Heffects | exact Hnew].
Defined.

Lemma startMic_starts_fresh_witness :
  In (Azure.StartContinuousRecognitionAsync 1)
     (effectsOf (Azure.startMic Samples.speechEnv false true
                   (Samples.listeningWith [Samples.hi])))
  /\ Azure.log (stateOf (Azure.startMic Samples.speechEnv false true
                           (Samples.listeningWith [Samples.hi])))
     = EmptyString
  /\ Azure.resultsRef (stateOf (Azure.startMic Samples.speechEnv false true
                                  (Samples.listeningWith [Samples.hi])))
     = []
  /\ In (Azure.Recognized Samples.hello)
        [Azure.Started; Azure.Recognized Samples.hello;
         Azure.Recognized Samples.silence].
Proof.
  destruct (startMic_starts_fresh nat natToString Samples.speechEnv false
              (Samples.listeningWith [Samples.hi]))
    as (Hempty & Hlog & Horigin).
  assert (Hstart : In (Azure.StartContinuousRecognitionAsync 1)
                      (effectsOf (Azure.startMic Samples.speechEnv false true
                                    (Samples.listeningWith [Samples.hi]))))
    by (simpl; auto).
  split; [exact Hstart|]. split; [exact (Hlog 1 Hstart)|].
  split; [exact Hempty|].
  apply Horigin. simpl. now left.
Defined.

(** ** The claims about the avatar widget *)

(** C2.  In both revisions of the widget, from any state whose cursor is
    zero and whatever is called or called back afterwards ([playNextEcho]
    and [resetEchoIndex] among the rest), the cursor never passes the end
    of the list of messages. *)
Theorem cursor_never_passes_the_list
        (env : KlleonChat.Env)
        (cyclic : KlleonCyclic.World) (cyclicEvents : list KlleonCyclic.Event)
        (guarded : KlleonGuarded.World)
        (guardedEvents : list KlleonGuarded.Event) :
  KlleonCyclic.currentEchoIndex (KlleonCyclic.widget cyclic) = 0 ->
  KlleonGuarded.currentEchoIndex (KlleonGuarded.widget guarded) = 0 ->
  KlleonCyclic.currentEchoIndex
    (KlleonCyclic.widget (KlleonCyclic.run env cyclicEvents cyclic))
  <= List.length
       (KlleonCyclic.echoMessages
          (KlleonCyclic.widget (KlleonCyclic.run env cyclicEvents cyclic)))
  /\
  KlleonGuarded.currentEchoIndex
    (KlleonGuarded.widget (KlleonGuarded.run env guardedEvents guarded))
  <= List.length
       (KlleonGuarded.echoMessages
          (KlleonGuarded.widget (KlleonGuarded.run env guardedEvents guarded))).
Proof.
  intros Hcyclic Hguarded. split.
  - destruct (cyclic_cursor_inside env cyclic cyclicEvents (or_introl Hcyclic))
      as [Hm Hc].
    rewrite Hm. destruct Hc as [->|Hlt]; lia.
  - destruct (guarded_cursor_inside env guarded guardedEvents) as [Hm Hc].
    + rewrite Hguarded. lia.
    + now rewrite Hm.
Qed.

Lemma cursor_never_passes_the_list_witness :
  KlleonCyclic.currentEchoIndex
    (KlleonCyclic.widget (KlleonCyclic.initialWorld Samples.lines)) = 0
  /\ KlleonGuarded.currentEchoIndex
       (KlleonGuarded.widget (KlleonGuarded.initialWorld Samples.lines)) = 0
  /\ KlleonCyclic.currentEchoIndex
       (KlleonCyclic.widget
          (KlleonCyclic.run Samples.avatarEnv Samples.cyclicSession
                            (KlleonCyclic.initialWorld Samples.lines)))
     <= 2
  /\ KlleonGuarded.currentEchoIndex
       (KlleonGuarded.widget
          (KlleonGuarded.run Samples.avatarEnv Samples.guardedSession
                             (KlleonGuarded.initialWorld Samples.lines)))
     <= 2.
Proof.
  split; [reflexivity|]. split; [reflexivity|].
  exact (cursor_never_passes_the_list
           Samples.avatarEnv
           (KlleonCyclic.initialWorld Samples.lines) Samples.cyclicSession
           (KlleonGuarded.initialWorld Samples.lines) Samples.guardedSession
           eq_refl eq_refl).
Defined.

(** C7.  An event leaves the cursor where it was, moves it one further, or
    puts it at zero: in klleon.tsx in every state reached from one whose
    cursor is zero (the step past the last message wraps to zero), in the
    other revision in every state. *)
Theorem cursor_advances_or_returns_to_zero
        (env : KlleonChat.Env)
        (cyclic : KlleonCyclic.World) (evs : list KlleonCyclic.Event)
        (cyclicEvent : KlleonCyclic.Event)
        (guarded : KlleonGuarded.World) (guardedEvent : KlleonGuarded.Event) :
  KlleonCyclic.currentEchoIndex (KlleonCyclic.widget cyclic) = 0 ->
  (let w := KlleonCyclic.run env evs cyclic in
   let before := KlleonCyclic.currentEchoIndex (KlleonCyclic.widget w) in
   let after :=
     KlleonCyclic.currentEchoIndex
       (KlleonCyclic.widget (fst (KlleonCyclic.step env cyclicEvent w))) in
   after = before \/ after = before + 1 \/ after = 0)
  /\
  (let before := KlleonGuarded.currentEchoIndex (KlleonGuarded.widget guarded) in
   let after :=
     KlleonGuarded.currentEchoIndex
       (KlleonGuarded.widget
          (fst (KlleonGuarded.step env guardedEvent guarded))) in
   after = before \/ after = before + 1 \/ after = 0).
Proof.
  intros Hcyclic. split; cbn zeta.
  - apply (cyclic_cursor_moves env cyclic evs cyclicEvent). now left.
  - destruct (guarded_step_cursor env guardedEvent guarded)
      as [_ [H|[H|[_ H]]]]; auto.
Qed.

Lemma cursor_advances_or_returns_to_zero_witness :
  KlleonCyclic.currentEchoIndex
    (KlleonCyclic.widget (KlleonCyclic.initialWorld Samples.lines)) = 0
  /\ KlleonCyclic.currentEchoIndex
       (KlleonCyclic.widget
          (KlleonCyclic.run Samples.avatarEnv Samples.cyclicSession
                            (KlleonCyclic.initialWorld Samples.lines)))
     = 1
  /\ KlleonCyclic.currentEchoIndex
       (KlleonCyclic.widget
          (fst (KlleonCyclic.step Samples.avatarEnv
                  KlleonCyclic.Call_playNextEcho
                  (KlleonCyclic.run Samples.avatarEnv Samples.cyclicSession
                                    (KlleonCyclic.initialWorld Samples.lines)))))
     = 0.
Proof.
  split; [reflexivity|]. split; [reflexivity|].
  destruct (cursor_advances_or_returns_to_zero
              Samples.avatarEnv
              (KlleonCyclic.initialWorld Samples.lines) Samples.cyclicSession
              KlleonCyclic.Call_playNextEcho
              (KlleonGuarded.initialWorld Samples.lines)
              KlleonGuarded.Call_resetEchoIndex eq_refl)
    as [[Hsame|[Hnext|Hzero]] _].
  - discriminate Hsame.
  - discriminate Hnext.
  - exact Hzero.
Defined.

(** *** The guard of [startSDK] *)

(** In the second revision, [init] is called only by the one [startSDK]
    that is under way, when its timer fires: the SDK is not initialized
    then and no [init] is pending. *)
Lemma guarded_init_is_never_doubled
      (env : KlleonChat.Env) (msgs : list string)
      (evs : list KlleonGuarded.Event) (ev : KlleonGuarded.Event)
      (o : KlleonChat.InitOption) :
  In (KlleonChat.Init o)
     (snd (KlleonGuarded.step env ev
             (KlleonGuarded.run env evs (KlleonGuarded.initialWorld msgs)))) ->
  KlleonGuarded.isSDKInitialized
    (KlleonGuarded.widget
       (KlleonGuarded.run env evs (KlleonGuarded.initialWorld msgs))) = false
  /\ KlleonGuarded.inflight
       (KlleonGuarded.run env evs (KlleonGuarded.initialWorld msgs))
     = [KlleonGuarded.StartSDK_awaitTimer].
Proof.
  intros Hin.
  destruct (guarded_step_guard env ev _ (guarded_one_start env msgs evs))
    as [_ Hinit].
  exact (Hinit o Hin).
Qed.

(** C3, at the input where klleon.tsx departs from it.  In klleon.tsx
    [startSDK] has no test: after a first call, with [init] pending and the
    start button still enabled, a second call registers the callbacks and
    calls [init] again, and two handlers wait for [init]; it calls [init]
    as well in a state where the SDK is initialized. *)
Theorem cyclic_startSDK_calls_init_again
        (env : KlleonChat.Env) (msgs : list string) :
  let w0 := KlleonCyclic.initialWorld msgs in
  let w1 := fst (KlleonCyclic.step env KlleonCyclic.Call_startSDK w0) in
  let w2 := fst (KlleonCyclic.step env KlleonCyclic.Call_startSDK w1) in
  KlleonCyclic.inflight w1 = [KlleonCyclic.StartSDK_awaitInit]
  /\ KlleonCyclic.startDisabled (KlleonCyclic.widget w1) = false
  /\ snd (KlleonCyclic.step env KlleonCyclic.Call_startSDK w1)
     = [KlleonChat.OnStatusEvent; KlleonChat.OnChatEvent;
        KlleonChat.Init (KlleonChat.mkInitOption (KlleonChat.SDK_KEY env)
                                                 (KlleonChat.AVATAR_ID env))]
  /\ KlleonCyclic.inflight w2
     = [KlleonCyclic.StartSDK_awaitInit; KlleonCyclic.StartSDK_awaitInit]
  /\ (forall st : KlleonCyclic.State,
         In (KlleonChat.Init (KlleonChat.mkInitOption (KlleonChat.SDK_KEY env)
                                                      (KlleonChat.AVATAR_ID env)))
            (effectsOf (KlleonCyclic.startSDK env st))).
Proof.
  cbn zeta. repeat split.
  intros st. rewrite cyclic_startSDK_always_inits. simpl. auto.
Qed.

(** *** Missing credentials *)

(** [startSDK], second revision, from the timer on when the key or the
    avatar id is missing: the callbacks are registered, the error goes to
    [console.error], the status becomes IDLE and [isInitializing] is
    cleared; [init] is not called. *)
Lemma guarded_startSDK_missing (env : KlleonChat.Env)
      (st : KlleonGuarded.State) :
  negb (truthyOpt (KlleonChat.SDK_KEY env))
  || negb (truthyOpt (KlleonChat.AVATAR_ID env)) = true ->
  KlleonGuarded.startSDK_afterTimer env st
  = (Returned None,
     KlleonGuarded.mkState
       (KlleonGuarded.isAvatarSpeaking st) "IDLE"
       (KlleonGuarded.isSDKInitialized st) false
       (KlleonGuarded.echoMessages st) (KlleonGuarded.currentEchoIndex st),
     [KlleonChat.OnStatusEvent; KlleonChat.OnChatEvent;
      KlleonChat.ConsoleError
        ["SDK 초기화 실패:"; "API 키 또는 아바타 ID가 설정되지 않았습니다."]]).
Proof.
  intros Hmiss.
  unfold KlleonGuarded.startSDK_afterTimer, bind, tryCatch. simpl.
  rewrite Hmiss. reflexivity.
Qed.

(** The one place where the widget shows a missing key: the status panel,
    rendered from the environment in every state, whether or not
    [startSDK] was called. *)
Lemma guarded_panel_names_missing_key (env : KlleonChat.Env)
      (st : KlleonGuarded.State) :
  truthyOpt (KlleonChat.SDK_KEY env) = false ->
  KlleonGuarded.credentialsText (KlleonGuarded.render env st)
  = "API 키: 없음 | 아바타 ID: "
      ++ (if truthyOpt (KlleonChat.AVATAR_ID env) then "설정됨" else "없음").
Proof.
  intros Hkey. unfold KlleonGuarded.render; simpl. now rewrite Hkey.
Qed.

(** C4, as the code has it.  With the speech key or region missing,
    [startMic] creates no recognizer and leaves [listening] alone; what the
    user gets is the alert of a refused permission or, past the permission
    request, the error line in the on-screen log.  With the SDK key or the
    avatar id missing, [startSDK] (second revision) stops before [init] and
    does not mark the SDK initialized; its error goes to the console, the
    status is set to IDLE and nothing is alerted. *)
Theorem missing_credentials_stop_before_the_vendor
        (Num : Type) (speechEnv : Azure.Env) (prosodyIsMethod granted : bool)
        (mic : Azure.State Num)
        (avatarEnv : KlleonChat.Env) (avatar : KlleonGuarded.State) :
  Azure.credentialsMissing speechEnv = true ->
  negb (truthyOpt (KlleonChat.SDK_KEY avatarEnv))
  || negb (truthyOpt (KlleonChat.AVATAR_ID avatarEnv)) = true ->
  (Azure.recognizerRef
     (stateOf (Azure.startMic speechEnv prosodyIsMethod granted mic))
   = Azure.recognizerRef mic
   /\ Azure.listening
        (stateOf (Azure.startMic speechEnv prosodyIsMethod granted mic))
      = Azure.listening mic
   /\ effectsOf (Azure.startMic speechEnv prosodyIsMethod granted mic)
      = (Azure.GetUserMedia
           :: (if granted then []
               else [Azure.Alert "마이크 권한을 허용해주세요."]))
   /\ (granted = true ->
       Azure.log
         (stateOf (Azure.startMic speechEnv prosodyIsMethod granted mic))
       = "Error: VITE_AZURE_SPEECH_KEY/REGION 환경변수를 확인하세요." ++ LF))
  /\
  (KlleonGuarded.isSDKInitialized
     (stateOf (KlleonGuarded.startSDK_afterTimer avatarEnv avatar))
   = KlleonGuarded.isSDKInitialized avatar
   /\ KlleonGuarded.status
        (stateOf (KlleonGuarded.startSDK_afterTimer avatarEnv avatar))
      = "IDLE"
   /\ KlleonGuarded.isInitializing
        (stateOf (KlleonGuarded.startSDK_afterTimer avatarEnv avatar))
      = false
   /\ effectsOf (KlleonGuarded.startSDK_afterTimer avatarEnv avatar)
      = [KlleonChat.OnStatusEvent; KlleonChat.OnChatEvent;
         KlleonChat.ConsoleError
           ["SDK 초기화 실패:";
            "API 키 또는 아바타 ID가 설정되지 않았습니다."]]).
Proof.
  intros Hspeech Havatar. split.
  - destruct granted.
    + rewrite (startMic_missing Num speechEnv prosodyIsMethod mic Hspeech).
      repeat split.
    + rewrite (startMic_denied Num speechEnv prosodyIsMethod mic).
      repeat split. discriminate.
  - rewrite (guarded_startSDK_missing avatarEnv avatar Havatar).
    repeat split.
Qed.

Lemma missing_credentials_stop_before_the_vendor_witness :
  Azure.credentialsMissing Samples.speechEnvNoKey = true
  /\ negb (truthyOpt (KlleonChat.SDK_KEY Samples.avatarEnvNoKey))
     || negb (truthyOpt (KlleonChat.AVATAR_ID Samples.avatarEnvNoKey)) = true
  /\ Azure.log
       (stateOf (Azure.startMic Samples.speechEnvNoKey false true
                   (@Azure.initialState nat)))
     = "Error: VITE_AZURE_SPEECH_KEY/REGION 환경변수를 확인하세요." ++ LF
  /\ KlleonGuarded.isSDKInitialized
       (stateOf (KlleonGuarded.startSDK_afterTimer Samples.avatarEnvNoKey
                   (KlleonGuarded.initialState Samples.lines)))
     = false.
Proof.
  split; [reflexivity|]. split; [reflexivity|].
  destruct (missing_credentials_stop_before_the_vendor
              nat Samples.speechEnvNoKey false true (@Azure.initialState nat)
              Samples.avatarEnvNoKey (KlleonGuarded.initialState Samples.lines)
              eq_refl eq_refl)
    as [(_ & _ & _ & Hlog) (Hinit & _)].
  split; [exact (Hlog eq_refl) | exact Hinit].
Defined.

(** C4 as stated fails for [startSDK]: with the SDK key missing, a call of
    [startSDK] and the firing of its timer alert nothing, print the error
    on the console only, and leave the widget rendered as on the first
    render; nothing of the failure reaches the user. *)
Lemma startSDK_missing_key_shows_nothing :
  KlleonGuarded.trace Samples.avatarEnvNoKey
    [KlleonGuarded.Call_startSDK; KlleonGuarded.Settle 0 None]
    (KlleonGuarded.initialWorld Samples.lines)
  = [KlleonChat.Destroy; KlleonChat.SetTimeout 100;
     KlleonChat.OnStatusEvent; KlleonChat.OnChatEvent;
     KlleonChat.ConsoleError
       ["SDK 초기화 실패:"; "API 키 또는 아바타 ID가 설정되지 않았습니다."]]
  /\ KlleonGuarded.run Samples.avatarEnvNoKey
       [KlleonGuarded.Call_startSDK; KlleonGuarded.Settle 0 None]
       (KlleonGuarded.initialWorld Samples.lines)
     = KlleonGuarded.initialWorld Samples.lines
  /\ ~ KlleonGuarded.userVisible Samples.avatarEnvNoKey
         (KlleonGuarded.initialState Samples.lines)
         (KlleonGuarded.widget
            (KlleonGuarded.run Samples.avatarEnvNoKey
               [KlleonGuarded.Call_startSDK; KlleonGuarded.Settle 0 None]
               (KlleonGuarded.initialWorld Samples.lines)))
         (KlleonGuarded.trace Samples.avatarEnvNoKey
            [KlleonGuarded.Call_startSDK; KlleonGuarded.Settle 0 None]
            (KlleonGuarded.initialWorld Samples.lines)).
Proof.
  split; [reflexivity|]. split; [reflexivity|].
  intros [[msg Hin]|Hview].
  - simpl in Hin. intuition discriminate.
  - apply Hview. reflexivity.
Qed.

(** * Further properties of the speech widget *)

Section AzureSessions.

Variable Num : Type.
Variable numToString : Num -> string.
Variable env : Azure.Env.
Variable prosodyIsMethod : bool.

Local Abbreviation Result := (Azure.SpeechRecognitionResult Num).
Local Abbreviation State := (Azure.State Num).
Local Abbreviation Event := (Azure.Event Num).
Local Abbreviation isCandidate := (@Azure.isCandidate Num).
Local Abbreviation finalResult := (@Azure.finalResult Num).
Local Abbreviation report := (Azure.report numToString).
Local Abbreviation onStopped := (Azure.onStopped numToString).
Local Abbreviation onStartError := (@Azure.onStartError Num).
Local Abbreviation stopMic := (@Azure.stopMic Num).
Local Abbreviation startMic := (@Azure.startMic Num env prosodyIsMethod).
Local Abbreviation handle := (Azure.handle numToString env prosodyIsMethod).
Local Abbreviation run := (Azure.run numToString env prosodyIsMethod).
Local Abbreviation credentialsMissing := (Azure.credentialsMissing env).

Lemma azure_run_app (evs1 evs2 : list Event) (st : State) :
  run (evs1 ++ evs2) st = run evs2 (run evs1 st).
Proof. unfold Azure.run. apply fold_left_app. Qed.

Lemma filter_candidates_twice (rs : list Result) :
  filter isCandidate (filter isCandidate rs) = filter isCandidate rs.
Proof.
  induction rs as [|u rs IH]; simpl; [reflexivity|].
  destruct (isCandidate u) eqn:Hu; simpl; [now rewrite Hu, IH | exact IH].
Qed.

Lemma run_recognized (rs : list Result) : forall st : State,
  run (map (@Azure.Recognized Num) rs) st
  = Azure.mkState (Azure.log st) (Azure.listening st)
                  (Azure.recognizerRef st)
                  (Azure.resultsRef st ++ filter isCandidate rs)
                  (Azure.created st).
Proof.
  induction rs as [|u rs IH]; intros st.
  - destruct st; simpl. now rewrite app_nil_r.
  - change (run (map (@Azure.Recognized Num) (u :: rs)) st)
      with (run (map (@Azure.Recognized Num) rs)
                (stateOf (handle (Azure.Recognized u) st))).
    rewrite IH. unfold Azure.handle, Azure.onRecognized. simpl filter.
    destruct (isCandidate u); simpl; [|reflexivity].
    now rewrite <- app_assoc.
Qed.

(** The recognized callback, called for the results [rs] in turn, adds to
    the buffer exactly the results of [rs] that are recognized speech with
    a text, in the order of arrival, and touches nothing else. *)
Theorem recognized_results_are_buffered_in_order
        (rs : list Result) (st : State) :
  run (map (@Azure.Recognized Num) rs) st
  = Azure.mkState (Azure.log st) (Azure.listening st)
                  (Azure.recognizerRef st)
                  (Azure.resultsRef st ++ filter isCandidate rs)
                  (Azure.created st).
Proof. exact (run_recognized rs st). Qed.

(** A whole listening session.  With both credentials present: the start
    button with the permission granted, the start callback, any results
    recognized, the stop button and the stop callback leave the component
    idle with an empty buffer, and a log that holds the start line, the
    stop line and then the report of the longest recognized utterance, or
    the no-speech line when nothing that was recognized had a text. *)
Theorem listening_session_ends_with_a_report (st : State) (rs : list Result) :
  credentialsMissing = false ->
  run ([Azure.Click_startMic true; Azure.Started]
         ++ map (@Azure.Recognized Num) rs
         ++ [Azure.Click_stopMic; Azure.Stopped (Azure.created st)]) st
  = Azure.mkState
      ("Continuous recognition started. 자유롭게 말하세요..." ++ LF
         ++ "Recognition stopped by user." ++ LF
         ++ match finalResult rs with
            | Some sel => report sel
            | None => "No speech captured." ++ LF
            end)
      false None [] (S (Azure.created st)).
Proof.
  intros Hok.
  rewrite !azure_run_app.
  change (run [Azure.Click_startMic true; Azure.Started] st)
    with (stateOf (Azure.onStarted (stateOf (startMic true st)))).
  rewrite (startMic_started Num env prosodyIsMethod st Hok).
  rewrite run_recognized.
  cbn [stateOf fst snd Azure.onStarted bind Azure.setListening Azure.append
       Azure.setLog modify Azure.log Azure.listening Azure.recognizerRef
       Azure.resultsRef Azure.created app].
  match goal with
  | |- run _ ?s = _ => set (listeningState := s)
  end.
  change (run [Azure.Click_stopMic; Azure.Stopped (Azure.created st)]
              listeningState)
    with (stateOf (onStopped (Azure.created st)
                     (stateOf (stopMic listeningState)))).
  assert (Hstop : stateOf (stopMic listeningState) = listeningState)
    by reflexivity.
  rewrite Hstop.
  assert (Hfinal : finalResult (Azure.resultsRef listeningState)
                   = finalResult rs).
  { unfold Azure.finalResult. subst listeningState. simpl Azure.resultsRef.
    now rewrite filter_candidates_twice. }
  destruct (finalResult rs) as [sel|] eqn:Hsel.
  - rewrite (onStopped_some Num numToString listeningState _ sel Hfinal).
    subst listeningState. unfold stateOf; simpl. f_equal.
  - rewrite (onStopped_none Num numToString listeningState _ Hfinal).
    subst listeningState. unfold stateOf; simpl. f_equal.
    unfold Azure.finalResult in Hsel.
    destruct (filter isCandidate rs); [reflexivity | discriminate Hsel].
Qed.

(** Along every run from the first render the buffer holds nothing but
    recognized speech with a text. *)
Theorem buffer_only_holds_recognized_speech (evs : list Event) :
  Forall (fun u => Azure.isRecognizedSpeech (Azure.reason u) = true
                   /\ Azure.text u <> EmptyString)
         (Azure.resultsRef (run evs Azure.initialState)).
Proof.
  assert (H : Forall (fun u => isCandidate u = true)
                     (Azure.resultsRef (run evs Azure.initialState)))
    by (apply buffer_holds_candidates; constructor).
  eapply Forall_impl; [|exact H].
  intros u Hu. unfold Azure.isCandidate in Hu.
  apply andb_true_iff in Hu as [Hreason Htext]. split; [exact Hreason|].
  intros Hempty. rewrite Hempty in Htext. discriminate Htext.
Qed.

(** Every handler but a start that gets past the permission request only
    adds to the log: what was on screen stays on screen, in front. *)
Theorem log_is_only_cleared_by_a_start (ev : Event) (st : State) :
  ev = Azure.Click_startMic true
  \/ exists suffix,
       Azure.log (stateOf (handle ev st)) = Azure.log st ++ suffix.
Proof.
  destruct ev as [granted| |sessionId|u|details why| |r err|r|err].
  - destruct granted; [now left|]. right. exists EmptyString.
    simpl. now rewrite append_empty_r.
  - right. exists EmptyString. rewrite append_empty_r.
    unfold Azure.handle, Azure.stopMic, bind, get, stateOf.
    now destruct (Azure.recognizerRef st).
  - right. eexists. reflexivity.
  - right. exists EmptyString. rewrite append_empty_r.
    unfold Azure.handle, Azure.onRecognized.
    now destruct (isCandidate u).
  - right. eexists. reflexivity.
  - right. eexists. reflexivity.
  - right. eexists. reflexivity.
  - right. unfold Azure.handle.
    destruct (finalResult (Azure.resultsRef st)) as [sel|] eqn:Hsel.
    + rewrite (onStopped_some Num numToString st r sel Hsel).
      eexists. reflexivity.
    + rewrite (onStopped_none Num numToString st r Hsel).
      eexists. reflexivity.
  - right. eexists. reflexivity.
Qed.

(** [stopMic] changes nothing in the component, and once the stop
    callback or the start-error callback has run, no recognizer is on
    record: [stopMic] then does nothing at all. *)
Theorem stopMic_without_a_recognizer_does_nothing
        (st : State) (r : nat) (err : string) :
  stateOf (stopMic st) = st
  /\ stopMic (stateOf (onStopped r st))
     = (Returned tt, stateOf (onStopped r st), [])
  /\ stopMic (stateOf (onStartError r err st))
     = (Returned tt, stateOf (onStartError r err st), []).
Proof.
  split; [|split].
  - unfold Azure.stopMic, bind, get, stateOf.
    now destruct (Azure.recognizerRef st).
  - destruct (finalResult (Azure.resultsRef st)) as [sel|] eqn:Hsel.
    + now rewrite (onStopped_some Num numToString st r sel Hsel).
    + now rewrite (onStopped_none Num numToString st r Hsel).
  - reflexivity.
Qed.

(** [startMic] never stops or closes a recognizer.  With both credentials
    present, a second start before the first session is stopped puts a new
    recognizer on record in place of the first one, which is left running,
    and [stopMic] then reaches the second only. *)
Theorem second_start_abandons_the_first_recognizer (st : State) :
  credentialsMissing = false ->
  Azure.recognizerRef (stateOf (startMic true st)) = Some (Azure.created st)
  /\ Azure.recognizerRef
       (stateOf (startMic true (stateOf (startMic true st))))
     = Some (S (Azure.created st))
  /\ (forall r,
         ~ In (Azure.Close r)
              (effectsOf (startMic true (stateOf (startMic true st))))
         /\ ~ In (Azure.StopContinuousRecognitionAsync r)
                (effectsOf (startMic true (stateOf (startMic true st)))))
  /\ effectsOf
       (stopMic (stateOf (startMic true (stateOf (startMic true st)))))
     = [Azure.StopContinuousRecognitionAsync (S (Azure.created st))].
Proof.
  intros Hok.
  rewrite (startMic_started Num env prosodyIsMethod st Hok).
  unfold stateOf, effectsOf. cbn [fst snd].
  rewrite (startMic_started Num env prosodyIsMethod
             (Azure.mkState EmptyString (Azure.listening st)
                            (Some (Azure.created st)) []
                            (S (Azure.created st))) Hok).
  cbn [fst snd Azure.recognizerRef Azure.created].
  split; [reflexivity|]. split; [reflexivity|]. split; [|reflexivity].
  intros r. split; destruct prosodyIsMethod; simpl; intuition discriminate.
Qed.

End AzureSessions.

Lemma listening_session_ends_with_a_report_witness :
  Azure.credentialsMissing Samples.speechEnv = false
  /\ Azure.run natToString Samples.speechEnv false
       ([Azure.Click_startMic true; Azure.Started]
          ++ map (@Azure.Recognized nat) Samples.recognizedInSession
          ++ [Azure.Click_stopMic; Azure.Stopped 0])
       Azure.initialState
     = Azure.mkState
         ("Continuous recognition started. 자유롭게 말하세요..." ++ LF
            ++ "Recognition stopped by user." ++ LF ++ LF
            ++ "=== FINAL (Unscripted) ===" ++ LF ++ "Text: hello" ++ LF
            ++ "Accuracy=90 | Fluency=80 | Prosody=70" ++ LF)
         false None [] 1.
Proof.
  split; [reflexivity|].
  exact (listening_session_ends_with_a_report
           nat natToString Samples.speechEnv false Azure.initialState
           Samples.recognizedInSession eq_refl).
Defined.

Lemma second_start_abandons_the_first_recognizer_witness :
  Azure.credentialsMissing Samples.speechEnv = false
  /\ effectsOf
       (Azure.stopMic
          (stateOf (Azure.startMic Samples.speechEnv false true
             (stateOf (Azure.startMic Samples.speechEnv false true
                (@Azure.initialState nat))))))
     = [Azure.StopContinuousRecognitionAsync 1].
Proof.
  split; [reflexivity|].
  exact (proj2 (proj2 (proj2
    (second_start_abandons_the_first_recognizer
       nat Samples.speechEnv false Azure.initialState eq_refl)))).
Defined.

(** With a credential missing no recognizer is ever constructed: along
    every run from the first render, whatever is clicked and whatever the
    vendor calls back, no recognizer is on record and none was created. *)
Theorem no_recognizer_without_credentials
        (Num : Type) (numToString : Num -> string) (env : Azure.Env)
        (prosodyIsMethod : bool) (evs : list (Azure.Event Num)) :
  Azure.credentialsMissing env = true ->
  Azure.recognizerRef
    (Azure.run numToString env prosodyIsMethod evs Azure.initialState) = None
  /\ Azure.created
       (Azure.run numToString env prosodyIsMethod evs Azure.initialState) = 0.
Proof.
  intros Hmiss.
  assert (Hinv : forall st : Azure.State Num,
             Azure.recognizerRef st = None /\ Azure.created st = 0 ->
             Azure.recognizerRef
               (Azure.run numToString env prosodyIsMethod evs st) = None
             /\ Azure.created
                  (Azure.run numToString env prosodyIsMethod evs st) = 0).
  { induction evs as [|ev evs IH]; intros st Hst; [exact Hst|].
    apply IH. destruct Hst as [Href Hcreated].
    destruct ev as [granted| |sessionId|u|details why| |r err|r|err];
      try (split; [exact Href | exact Hcreated]);
      unfold Azure.handle.
    - destruct granted.
      + rewrite (startMic_missing Num env prosodyIsMethod st Hmiss).
        split; [exact Href | exact Hcreated].
      + split; [exact Href | exact Hcreated].
    - unfold Azure.stopMic, bind, get, stateOf. rewrite Href.
      split; [exact Href | exact Hcreated].
    - unfold Azure.onRecognized.
      destruct (Azure.isCandidate u); split; assumption.
    - split; [reflexivity | exact Hcreated].
    - destruct (Azure.finalResult (Azure.resultsRef st)) as [sel|] eqn:Hsel.
      + rewrite (onStopped_some Num numToString st r sel Hsel).
        split; [reflexivity | exact Hcreated].
      + rewrite (onStopped_none Num numToString st r Hsel).
        split; [reflexivity | exact Hcreated]. }
  apply Hinv. split; reflexivity.
Qed.

Lemma no_recognizer_without_credentials_witness :
  Azure.credentialsMissing Samples.speechEnvNoKey = true
  /\ Azure.recognizerRef
       (Azure.run natToString Samples.speechEnvNoKey false
          [Azure.Click_startMic true; Azure.Started; Azure.Click_stopMic]
          (@Azure.initialState nat)) = None.
Proof.
  split; [reflexivity|].
  exact (proj1 (no_recognizer_without_credentials
                  nat natToString Samples.speechEnvNoKey false
                  [Azure.Click_startMic true; Azure.Started;
                   Azure.Click_stopMic] eq_refl)).
Defined.

(** * Further properties of the avatar widget, second revision *)

Section KlleonGuardedSessions.
Import KlleonChat.
Variable env : Env.

Local Abbreviation State := KlleonGuarded.State.
Local Abbreviation World := KlleonGuarded.World.
Local Abbreviation Event := KlleonGuarded.Event.
Local Abbreviation step := (KlleonGuarded.step env).
Local Abbreviation run := (KlleonGuarded.run env).
Local Abbreviation trace := (KlleonGuarded.trace env).
Local Abbreviation render := (KlleonGuarded.render env).
Local Abbreviation widget := KlleonGuarded.widget.
Local Abbreviation inflight := KlleonGuarded.inflight.
Local Abbreviation startSDK := KlleonGuarded.startSDK.
Local Abbreviation stopSDK := KlleonGuarded.stopSDK.
Local Abbreviation playNextEcho := KlleonGuarded.playNextEcho.
Local Abbreviation keysMissing :=
  (negb (truthyOpt (SDK_KEY env)) || negb (truthyOpt (AVATAR_ID env))).

(** The start button and the test of [startSDK] agree: when the button is
    rendered disabled a call of [startSDK] does nothing at all, and when
    it is rendered enabled the call sets [isInitializing], destroys what
    the vendor may still hold and waits for its timer. *)
Theorem start_button_agrees_with_startSDK (st : State) :
  (KlleonGuarded.startDisabled (render st) = true ->
   startSDK st = (Returned None, st, []))
  /\
  (KlleonGuarded.startDisabled (render st) = false ->
   startSDK st
   = (Returned (Some KlleonGuarded.StartSDK_awaitTimer),
      KlleonGuarded.mkState
        (KlleonGuarded.isAvatarSpeaking st) (KlleonGuarded.status st)
        (KlleonGuarded.isSDKInitialized st) true
        (KlleonGuarded.echoMessages st) (KlleonGuarded.currentEchoIndex st),
      [Destroy; SetTimeout 100])).
Proof.
  unfold KlleonGuarded.render; cbn [KlleonGuarded.startDisabled].
  rewrite orb_comm. split; intros Hbutton.
  - now apply guarded_startSDK_returns.
  - unfold KlleonGuarded.startSDK, bind, get. now rewrite Hbutton.
Qed.

(** Along every run from the first render at most one [startSDK] is
    waiting at an [await]; [isInitializing] is set exactly while one is
    waiting, and the SDK is not initialized then. *)
Theorem one_startSDK_at_a_time (msgs : list string) (evs : list Event) :
  List.length (inflight (run evs (KlleonGuarded.initialWorld msgs))) <= 1
  /\ (KlleonGuarded.isInitializing
        (widget (run evs (KlleonGuarded.initialWorld msgs))) = true
      <-> inflight (run evs (KlleonGuarded.initialWorld msgs)) <> [])
  /\ (inflight (run evs (KlleonGuarded.initialWorld msgs)) <> [] ->
      KlleonGuarded.isSDKInitialized
        (widget (run evs (KlleonGuarded.initialWorld msgs))) = false).
Proof.
  destruct (guarded_one_start env msgs evs)
    as [[Hnone Hflag]|(t & Hone & Hflag & Hinit)];
    [rewrite Hnone, Hflag | rewrite Hone, Hflag, Hinit]; simpl.
  - split; [lia|]. split; [split; [discriminate | congruence] | congruence].
  - split; [lia|]. split; [split; [discriminate | reflexivity] | reflexivity].
Qed.

(** A start that succeeds.  From an idle widget, with the key and the
    avatar id present: the call, its timer and the resolution of [init]
    mark the SDK initialized and clear [isInitializing], and the vendor
    sees [destroy], the two registrations and one [init] with the key and
    the avatar id of the environment, in that order. *)
Theorem startSDK_initializes_the_sdk (st : State) (timer : option string) :
  keysMissing = false ->
  KlleonGuarded.isInitializing st = false ->
  KlleonGuarded.isSDKInitialized st = false ->
  run [KlleonGuarded.Call_startSDK; KlleonGuarded.Settle 0 timer;
       KlleonGuarded.Settle 0 None]
      (KlleonGuarded.mkWorld st [])
  = KlleonGuarded.mkWorld
      (KlleonGuarded.mkState
         (KlleonGuarded.isAvatarSpeaking st) (KlleonGuarded.status st)
         true false
         (KlleonGuarded.echoMessages st) (KlleonGuarded.currentEchoIndex st))
      []
  /\ trace [KlleonGuarded.Call_startSDK; KlleonGuarded.Settle 0 timer;
            KlleonGuarded.Settle 0 None]
           (KlleonGuarded.mkWorld st [])
     = [Destroy; SetTimeout 100; OnStatusEvent; OnChatEvent;
        ConsoleLog ["SDK 초기화 시작..."];
        Init (mkInitOption (SDK_KEY env) (AVATAR_ID env));
        ConsoleLog ["SDK 초기화 완료"]].
Proof.
  intros Hkeys Hinitializing Hinitialized.
  destruct st as [speaking status initialized initializing msgs idx].
  simpl in Hinitializing, Hinitialized. subst.
  unfold KlleonGuarded.run, KlleonGuarded.trace; simpl.
  unfold KlleonGuarded.spawn, KlleonGuarded.startSDK,
    KlleonGuarded.startSDK_afterTimer, bind, tryCatch, get; simpl.
  rewrite Hkeys. simpl. split; reflexivity.
Qed.

(** A start that fails.  When [init] rejects, the error goes to the
    console, the status is IDLE, the SDK is not marked initialized and
    [isInitializing] is cleared, so that the start button is enabled again
    and the user can start once more. *)
Theorem startSDK_can_be_retried_after_a_rejection
        (st : State) (timer : option string) (error : string) :
  keysMissing = false ->
  KlleonGuarded.isInitializing st = false ->
  KlleonGuarded.isSDKInitialized st = false ->
  run [KlleonGuarded.Call_startSDK; KlleonGuarded.Settle 0 timer;
       KlleonGuarded.Settle 0 (Some error)]
      (KlleonGuarded.mkWorld st [])
  = KlleonGuarded.mkWorld
      (KlleonGuarded.mkState
         (KlleonGuarded.isAvatarSpeaking st) "IDLE" false false
         (KlleonGuarded.echoMessages st) (KlleonGuarded.currentEchoIndex st))
      []
  /\ trace [KlleonGuarded.Call_startSDK; KlleonGuarded.Settle 0 timer;
            KlleonGuarded.Settle 0 (Some error)]
           (KlleonGuarded.mkWorld st [])
     = [Destroy; SetTimeout 100; OnStatusEvent; OnChatEvent;
        ConsoleLog ["SDK 초기화 시작..."];
        Init (mkInitOption (SDK_KEY env) (AVATAR_ID env));
        ConsoleError ["SDK 초기화 실패:"; error]]
  /\ KlleonGuarded.startDisabled
       (render
          (widget
             (run [KlleonGuarded.Call_startSDK; KlleonGuarded.Settle 0 timer;
                   KlleonGuarded.Settle 0 (Some error)]
                  (KlleonGuarded.mkWorld st []))))
     = false.
Proof.
  intros Hkeys Hinitializing Hinitialized.
  destruct st as [speaking status initialized initializing msgs idx].
  simpl in Hinitializing, Hinitialized. subst.
  unfold KlleonGuarded.run, KlleonGuarded.trace; simpl.
  unfold KlleonGuarded.spawn, KlleonGuarded.startSDK,
    KlleonGuarded.startSDK_afterTimer, bind, tryCatch, get; simpl.
  rewrite Hkeys. simpl. repeat split; reflexivity.
Qed.

Lemma removeAt_Forall {A : Type} (P : A -> Prop) (l : list A) :
  forall i, Forall P l -> Forall P (removeAt i l).
Proof.
  induction l as [|x l IH]; intros i Hl; [destruct i; constructor|].
  inversion Hl; subst. destruct i; simpl; [assumption|].
  constructor; auto.
Qed.

(** While the key or the avatar id is missing, an event keeps the SDK
    uninitialized and every waiting [startSDK] at its timer, and calls no
    [init]. *)
Lemma guarded_step_without_keys (ev : Event) (w : World) :
  keysMissing = true ->
  KlleonGuarded.isSDKInitialized (widget w) = false ->
  Forall (fun t => t = KlleonGuarded.StartSDK_awaitTimer) (inflight w) ->
  KlleonGuarded.isSDKInitialized (widget (fst (step ev w))) = false
  /\ Forall (fun t => t = KlleonGuarded.StartSDK_awaitTimer)
            (inflight (fst (step ev w)))
  /\ (forall o, ~ In (Init o) (snd (step ev w))).
Proof.
  intros Hkeys Hinit Htasks.
  destruct w as [[speaking status initialized initializing msgs idx] tasks].
  simpl in Hinit, Htasks. subst initialized.
  assert (Hnew : Forall (fun t => t = KlleonGuarded.StartSDK_awaitTimer)
                        (tasks ++ [KlleonGuarded.StartSDK_awaitTimer]))
    by (apply Forall_app; split; auto).
  destruct ev as [| | | | |s|c|i rejected]; simpl.
  8: { destruct (nth_error tasks i) as [t|] eqn:Ht.
       - assert (Htimer : t = KlleonGuarded.StartSDK_awaitTimer).
         { rewrite Forall_forall in Htasks. apply Htasks.
           eapply nth_error_In. exact Ht. }
         subst t. guarded_handlers. rewrite Hkeys. simpl.
         repeat split; auto using removeAt_Forall.
         intros o Hin. intuition discriminate.
       - repeat split; auto. }
  all: guarded_handlers; split_conditions; repeat split; auto;
    intros o Hin; simpl in Hin; intuition discriminate.
Qed.

(** While the key or the avatar id is missing the SDK is never started:
    along every run from the first render [init] is not called and the SDK
    is not marked initialized. *)
Theorem sdk_never_starts_without_its_key
        (msgs : list string) (evs : list Event) :
  keysMissing = true ->
  KlleonGuarded.isSDKInitialized
    (widget (run evs (KlleonGuarded.initialWorld msgs))) = false
  /\ (forall o, ~ In (Init o) (trace evs (KlleonGuarded.initialWorld msgs))).
Proof.
  intros Hkeys.
  assert (Hrun : forall w : World,
             KlleonGuarded.isSDKInitialized (widget w) = false ->
             Forall (fun t => t = KlleonGuarded.StartSDK_awaitTimer)
                    (inflight w) ->
             KlleonGuarded.isSDKInitialized (widget (run evs w)) = false
             /\ (forall o, ~ In (Init o) (trace evs w))).
  { induction evs as [|ev evs IH]; intros w Hinit Htasks.
    - split; [exact Hinit | intros o []].
    - destruct (guarded_step_without_keys ev w Hkeys Hinit Htasks)
        as (Hinit' & Htasks' & Hquiet).
      destruct (IH _ Hinit' Htasks') as [Hlast Hrest].
      split; [exact Hlast|].
      intros o Hin. simpl in Hin. apply in_app_or in Hin as [Hin|Hin].
      + exact (Hquiet o Hin).
      + exact (Hrest o Hin). }
  apply Hrun; [reflexivity | constructor].
Qed.

Lemma spoken_app (a b : list Effect) :
  spoken (a ++ b) = (spoken a ++ spoken b)%list.
Proof.
  induction a as [|e a IH]; simpl; [reflexivity|].
  destruct e; simpl; now rewrite IH.
Qed.

Lemma nth_error_skipn_cons {A : Type} (l : list A) : forall i,
  i < List.length l ->
  exists x, nth_error l i = Some x /\ skipn i l = x :: skipn (S i) l.
Proof.
  induction l as [|y l IH]; intros i Hi; simpl in Hi; [lia|].
  destruct i as [|i]; [exists y; split; reflexivity|].
  destruct (IH i) as (x & Hx & Hskip); [lia|].
  exists x. split; [exact Hx | exact Hskip].
Qed.

(** [playNextEcho] on an initialized widget whose cursor is inside the
    list. *)
Lemma guarded_playNextEcho_speaks (st : State) (line : string) :
  KlleonGuarded.isSDKInitialized st = true ->
  nth_error (KlleonGuarded.echoMessages st) (KlleonGuarded.currentEchoIndex st)
  = Some line ->
  playNextEcho st
  = (Returned tt,
     KlleonGuarded.mkState
       (KlleonGuarded.isAvatarSpeaking st) (KlleonGuarded.status st)
       (KlleonGuarded.isSDKInitialized st) (KlleonGuarded.isInitializing st)
       (KlleonGuarded.echoMessages st) (KlleonGuarded.currentEchoIndex st + 1),
     [ConsoleLog ["Speaking:"; line]; Echo (Some line)]).
Proof.
  intros Hinit Hline.
  assert (Hlt : KlleonGuarded.currentEchoIndex st
                < List.length (KlleonGuarded.echoMessages st))
    by (apply nth_error_Some; congruence).
  unfold KlleonGuarded.playNextEcho, bind, get. rewrite Hinit. simpl.
  destruct (Nat.ltb_spec 0 (List.length (KlleonGuarded.echoMessages st)));
    [|lia].
  destruct (Nat.leb_spec (List.length (KlleonGuarded.echoMessages st))
                         (KlleonGuarded.currentEchoIndex st)); [lia|].
  rewrite Hline. simpl. now rewrite Hinit.
Qed.

(** The lines are spoken in order, each once.  On an initialized widget,
    [n] calls of [playNextEcho] that fit before the end of the list give
    to [echo] the next [n] lines from the cursor on, in the order of the
    list, and leave the cursor [n] further. *)
Theorem lines_are_spoken_in_order (n : nat) :
  forall (st : State) (tasks : list KlleonGuarded.Task),
    KlleonGuarded.isSDKInitialized st = true ->
    KlleonGuarded.currentEchoIndex st + n
    <= List.length (KlleonGuarded.echoMessages st) ->
    spoken (trace (repeat KlleonGuarded.Call_playNextEcho n)
                  (KlleonGuarded.mkWorld st tasks))
    = map Some (firstn n (skipn (KlleonGuarded.currentEchoIndex st)
                                (KlleonGuarded.echoMessages st)))
    /\ run (repeat KlleonGuarded.Call_playNextEcho n)
           (KlleonGuarded.mkWorld st tasks)
       = KlleonGuarded.mkWorld
           (KlleonGuarded.mkState
              (KlleonGuarded.isAvatarSpeaking st) (KlleonGuarded.status st)
              (KlleonGuarded.isSDKInitialized st)
              (KlleonGuarded.isInitializing st)
              (KlleonGuarded.echoMessages st)
              (KlleonGuarded.currentEchoIndex st + n))
           tasks.
Proof.
  induction n as [|n IH]; intros st tasks Hinit Hfit.
  - destruct st; simpl. rewrite Nat.add_0_r. split; reflexivity.
  - destruct (nth_error_skipn_cons (KlleonGuarded.echoMessages st)
                (KlleonGuarded.currentEchoIndex st)) as (line & Hline & Hskip);
      [lia|].
    cbn [repeat KlleonGuarded.trace].
    change (run (KlleonGuarded.Call_playNextEcho
                   :: repeat KlleonGuarded.Call_playNextEcho n)
                (KlleonGuarded.mkWorld st tasks))
      with (run (repeat KlleonGuarded.Call_playNextEcho n)
                (fst (step KlleonGuarded.Call_playNextEcho
                           (KlleonGuarded.mkWorld st tasks)))).
    cbn [KlleonGuarded.step]. unfold KlleonGuarded.call.
    cbn [KlleonGuarded.widget KlleonGuarded.inflight].
    rewrite (guarded_playNextEcho_speaks st line Hinit Hline).
    cbn [fst snd]. rewrite spoken_app.
    match goal with
    | |- context [KlleonGuarded.mkWorld ?s tasks] =>
        destruct (IH s tasks) as [Hspoken Hrun];
        [exact Hinit | cbn [KlleonGuarded.currentEchoIndex
                            KlleonGuarded.echoMessages]; lia |]
    end.
    rewrite Hspoken, Hrun.
    cbn [KlleonGuarded.currentEchoIndex KlleonGuarded.echoMessages
         KlleonGuarded.isAvatarSpeaking KlleonGuarded.status
         KlleonGuarded.isSDKInitialized KlleonGuarded.isInitializing].
    rewrite Hskip, Nat.add_1_r. cbn [firstn map spoken app].
    split; [reflexivity|]. do 2 f_equal. lia.
Qed.

(** Past the last line.  On an initialized widget whose cursor is at the
    end of a list that is not empty, [playNextEcho] only alerts: nothing
    is spoken and the cursor stays.  With an empty list it does nothing at
    all. *)
Theorem playNextEcho_stops_at_the_end (st : State) :
  KlleonGuarded.isSDKInitialized st = true ->
  List.length (KlleonGuarded.echoMessages st)
  <= KlleonGuarded.currentEchoIndex st ->
  playNextEcho st
  = (Returned tt, st,
     match KlleonGuarded.echoMessages st with
     | [] => []
     | _ :: _ =>
         [Alert
            "모든 대사를 읽었습니다. '처음부터' 버튼을 눌러서 다시 시작하세요."]
     end).
Proof.
  intros Hinit Hend.
  apply Nat.leb_le in Hend.
  unfold KlleonGuarded.playNextEcho, bind, get. rewrite Hinit, Hend.
  destruct (KlleonGuarded.echoMessages st) as [|line rest]; reflexivity.
Qed.

(** The play button and [playNextEcho] agree.  Whenever the button is
    rendered enabled, a call speaks the line under the cursor and moves
    the cursor one further; and that line, unless it is the empty string,
    is the one rendered as the next line. *)
Theorem play_button_speaks_the_line_shown (st : State) :
  KlleonGuarded.playDisabled (render st) = false ->
  exists line,
    nth_error (KlleonGuarded.echoMessages st)
              (KlleonGuarded.currentEchoIndex st) = Some line
    /\ effectsOf (playNextEcho st)
       = [ConsoleLog ["Speaking:"; line]; Echo (Some line)]
    /\ KlleonGuarded.currentEchoIndex (stateOf (playNextEcho st))
       = KlleonGuarded.currentEchoIndex st + 1
    /\ (line <> EmptyString ->
        KlleonGuarded.nextLineText (render st) = line).
Proof.
  unfold KlleonGuarded.render; cbn [KlleonGuarded.playDisabled].
  intros Hbutton.
  repeat (apply orb_false_iff in Hbutton as [Hbutton ?]).
  apply negb_false_iff in Hbutton.
  match goal with
  | H : (_ <=? _)%nat = false |- _ => apply Nat.leb_gt in H; rename H into Hlt
  end.
  destruct (nth_error_skipn_cons _ _ Hlt) as (line & Hline & _).
  exists line. split; [exact Hline|].
  rewrite (guarded_playNextEcho_speaks st line Hbutton Hline).
  split; [reflexivity|]. split; [reflexivity|].
  intros Hline'. cbn [KlleonGuarded.nextLineText]. rewrite Hline.
  destruct line; [congruence | reflexivity].
Qed.

(** [stopSDK] on an initialized widget stops the speech, destroys the
    session and resets the three session fields; it leaves the cursor and
    the list alone, so that the dialogue goes on where it was after a new
    start.  On a widget that is not initialized it does nothing. *)
Lemma stopSDK_resets_the_session_only (st : State) :
  (KlleonGuarded.isSDKInitialized st = true ->
   stopSDK st
   = (Returned tt,
      KlleonGuarded.mkState
        false "IDLE" false (KlleonGuarded.isInitializing st)
        (KlleonGuarded.echoMessages st) (KlleonGuarded.currentEchoIndex st),
      [StopSpeech; Destroy; ConsoleLog ["SDK 종료 완료"]]))
  /\ (KlleonGuarded.isSDKInitialized st = false ->
      stopSDK st = (Returned tt, st, [])).
Proof.
  unfold KlleonGuarded.stopSDK, bind, get.
  split; intros Hinit; rewrite Hinit; reflexivity.
Qed.

(** Leaving the page.  In every state reached from the first render, the
    cleanup destroys the session when the SDK is initialized, and does
    nothing when it is not: in particular while a [startSDK] is waiting
    for its timer or for [init]. *)
Theorem unmount_destroys_an_initialized_session_only
        (msgs : list string) (evs : list Event) :
  (KlleonGuarded.isSDKInitialized
     (widget (run evs (KlleonGuarded.initialWorld msgs))) = true ->
   KlleonGuarded.unmount (run evs (KlleonGuarded.initialWorld msgs))
   = [Destroy; ConsoleLog ["컴포넌트 언마운트: 세션 정리 완료"]])
  /\ (inflight (run evs (KlleonGuarded.initialWorld msgs)) <> [] ->
      KlleonGuarded.unmount (run evs (KlleonGuarded.initialWorld msgs)) = []).
Proof.
  unfold KlleonGuarded.unmount. split.
  - intros Hinit. now rewrite Hinit.
  - intros Hwaiting.
    destruct (guarded_one_start env msgs evs)
      as [[Hnone _]|(t & _ & _ & Hinit)]; [congruence|].
    now rewrite Hinit.
Qed.

(** What one event lets the vendor say or stop saying: [echo] and
    [stopSpeech] are called only on a widget whose SDK is initialized, and
    every text given to [echo] is a line of the list. *)
Lemma guarded_step_speech (ev : Event) (w : World) :
  (forall m, In (Echo m) (snd (step ev w)) ->
             KlleonGuarded.isSDKInitialized (widget w) = true
             /\ exists line,
                  m = Some line
                  /\ In line (KlleonGuarded.echoMessages (widget w)))
  /\ (In StopSpeech (snd (step ev w)) ->
      KlleonGuarded.isSDKInitialized (widget w) = true).
Proof.
  destruct w as [[speaking status initialized initializing msgs idx] tasks].
  destruct ev as [| | | | |s|c|i rejected]; simpl.
  3: { unfold KlleonGuarded.call, KlleonGuarded.playNextEcho, bind, get.
       simpl. destruct initialized; simpl;
         [|split; [intros m Hin | intros Hin];
           simpl in Hin; intuition discriminate].
       destruct (0 <? List.length msgs)%nat; simpl;
         [|split; [intros m [] | intros []]].
       destruct (Nat.leb_spec (List.length msgs) idx); simpl;
         [split; [intros m Hin | intros Hin];
          simpl in Hin; intuition discriminate|].
       destruct (nth_error_skipn_cons msgs idx) as (line & Hline & _);
         [assumption|].
       rewrite Hline. split.
       - intros m [Hin|[Hin|[]]]; [discriminate Hin|].
         injection Hin as <-. split; [reflexivity|].
         exists line. split; [reflexivity|].
         eapply nth_error_In. exact Hline.
       - intros [Hin|[Hin|[]]]; discriminate Hin. }
  7: { destruct (nth_error tasks i) as [[|]|]; simpl;
         [guarded_handlers; split_conditions
         | guarded_handlers; destruct rejected; simpl
         | ];
         (split; [intros m Hin | intros Hin];
          simpl in Hin; intuition discriminate). }
  all: guarded_handlers; destruct initialized; simpl; split_conditions;
    (split; [intros m Hin | intros Hin]);
    simpl in Hin; try reflexivity; intuition discriminate.
Qed.

End KlleonGuardedSessions.

(** * Further properties of the avatar widget, klleon.tsx *)

Section KlleonCyclicSessions.
Import KlleonChat.
Variable env : Env.

Local Abbreviation State := KlleonCyclic.State.
Local Abbreviation World := KlleonCyclic.World.
Local Abbreviation Event := KlleonCyclic.Event.
Local Abbreviation step := (KlleonCyclic.step env).
Local Abbreviation run := (KlleonCyclic.run env).
Local Abbreviation trace := (KlleonCyclic.trace env).
Local Abbreviation widget := KlleonCyclic.widget.
Local Abbreviation inflight := KlleonCyclic.inflight.
Local Abbreviation playNextEcho := KlleonCyclic.playNextEcho.

(** [playNextEcho] on an initialized widget whose list is not empty. *)
Lemma cyclic_playNextEcho_speaks (st : State) :
  KlleonCyclic.isSDKInitialized st = true ->
  0 < List.length (KlleonCyclic.echoMessages st) ->
  playNextEcho st
  = (Returned tt,
     KlleonCyclic.mkState
       (KlleonCyclic.isAvatarSpeaking st) (KlleonCyclic.status st)
       (KlleonCyclic.isSDKInitialized st) (KlleonCyclic.echoMessages st)
       ((KlleonCyclic.currentEchoIndex st + 1)
          mod List.length (KlleonCyclic.echoMessages st)),
     [Echo (nth_error (KlleonCyclic.echoMessages st)
                      (KlleonCyclic.currentEchoIndex st))]).
Proof.
  intros Hinit Hpos. apply Nat.ltb_lt in Hpos.
  unfold KlleonCyclic.playNextEcho, bind, get. rewrite Hinit, Hpos.
  simpl. now rewrite Hinit.
Qed.

(** The lines are spoken round and round.  On an initialized widget whose
    cursor is inside the list, [n] calls of [playNextEcho] give to [echo]
    the lines at the cursor, the cursor plus one, and so on, counted
    modulo the length of the list, and leave the cursor [n] further,
    modulo the length. *)
Theorem lines_are_spoken_in_a_cycle (n : nat) :
  forall (st : State) (tasks : list KlleonCyclic.Task),
    KlleonCyclic.isSDKInitialized st = true ->
    KlleonCyclic.currentEchoIndex st
    < List.length (KlleonCyclic.echoMessages st) ->
    spoken (trace (repeat KlleonCyclic.Call_playNextEcho n)
                  (KlleonCyclic.mkWorld st tasks))
    = map (fun i =>
             nth_error (KlleonCyclic.echoMessages st)
                       ((KlleonCyclic.currentEchoIndex st + i)
                          mod List.length (KlleonCyclic.echoMessages st)))
          (seq 0 n)
    /\ run (repeat KlleonCyclic.Call_playNextEcho n)
           (KlleonCyclic.mkWorld st tasks)
       = KlleonCyclic.mkWorld
           (KlleonCyclic.mkState
              (KlleonCyclic.isAvatarSpeaking st) (KlleonCyclic.status st)
              (KlleonCyclic.isSDKInitialized st)
              (KlleonCyclic.echoMessages st)
              ((KlleonCyclic.currentEchoIndex st + n)
                 mod List.length (KlleonCyclic.echoMessages st)))
           tasks.
Proof.
  induction n as [|n IH]; intros st tasks Hinit Hinside.
  - destruct st as [speaking status initialized msgs idx]; simpl in *.
    rewrite Nat.add_0_r, Nat.mod_small by exact Hinside.
    split; reflexivity.
  - cbn [repeat KlleonCyclic.trace].
    change (run (KlleonCyclic.Call_playNextEcho
                   :: repeat KlleonCyclic.Call_playNextEcho n)
                (KlleonCyclic.mkWorld st tasks))
      with (run (repeat KlleonCyclic.Call_playNextEcho n)
                (fst (step KlleonCyclic.Call_playNextEcho
                           (KlleonCyclic.mkWorld st tasks)))).
    cbn [KlleonCyclic.step]. unfold KlleonCyclic.call.
    cbn [KlleonCyclic.widget KlleonCyclic.inflight].
    rewrite (cyclic_playNextEcho_speaks st Hinit) by lia.
    cbn [fst snd].
    match goal with
    | |- context [KlleonCyclic.mkWorld ?s tasks] =>
        destruct (IH s tasks) as [Hspoken Hrun];
        [exact Hinit
        | cbn [KlleonCyclic.currentEchoIndex KlleonCyclic.echoMessages];
          apply Nat.mod_upper_bound; lia |]
    end.
    rewrite Hrun. cbn [app spoken]. rewrite Hspoken.
    cbn [KlleonCyclic.currentEchoIndex KlleonCyclic.echoMessages
         KlleonCyclic.isAvatarSpeaking KlleonCyclic.status
         KlleonCyclic.isSDKInitialized].
    split.
    + cbn [seq map]. rewrite Nat.add_0_r, (Nat.mod_small _ _ Hinside).
      f_equal. rewrite <- seq_shift, map_map.
      apply map_ext. intros i.
      rewrite Nat.Div0.add_mod_idemp_l. do 2 f_equal. lia.
    + do 2 f_equal. rewrite Nat.Div0.add_mod_idemp_l. f_equal. lia.
Qed.

(** A session from start to stop, klleon.tsx.  From any state with
    nothing waiting: [startSDK], [init] resolving, [stopSDK] and its
    [init] resolving call [init] with the key of the environment as it is
    (no test of it), then [init] again with the empty key, then [destroy];
    the widget ends idle, with its cursor and its list as they were. *)
Theorem cyclic_start_then_stop (st : State) :
  run [KlleonCyclic.Call_startSDK; KlleonCyclic.Settle 0 None;
       KlleonCyclic.Call_stopSDK; KlleonCyclic.Settle 0 None]
      (KlleonCyclic.mkWorld st [])
  = KlleonCyclic.mkWorld
      (KlleonCyclic.mkState false "IDLE" false
                            (KlleonCyclic.echoMessages st)
                            (KlleonCyclic.currentEchoIndex st))
      []
  /\ trace [KlleonCyclic.Call_startSDK; KlleonCyclic.Settle 0 None;
            KlleonCyclic.Call_stopSDK; KlleonCyclic.Settle 0 None]
           (KlleonCyclic.mkWorld st [])
     = [OnStatusEvent; OnChatEvent;
        Init (mkInitOption (SDK_KEY env) (AVATAR_ID env));
        ConsoleLog ["SDK 초기화 완료"];
        Init (mkInitOption (Some EmptyString) (AVATAR_ID env));
        Destroy;
        ConsoleLog ["SDK 종료 완료"]].
Proof. destruct st; split; reflexivity. Qed.

(** A stop that fails, klleon.tsx.  When the [init] of [stopSDK] rejects,
    [destroy] is not called and the widget is left as it was: a widget
    that was initialized still says so. *)
Theorem cyclic_failed_stop_changes_nothing (st : State) (error : string) :
  run [KlleonCyclic.Call_stopSDK; KlleonCyclic.Settle 0 (Some error)]
      (KlleonCyclic.mkWorld st [])
  = KlleonCyclic.mkWorld st []
  /\ trace [KlleonCyclic.Call_stopSDK; KlleonCyclic.Settle 0 (Some error)]
           (KlleonCyclic.mkWorld st [])
     = [Init (mkInitOption (Some EmptyString) (AVATAR_ID env));
        ConsoleError ["SDK 종료 실패:"; error]].
Proof. destruct st; split; reflexivity. Qed.

(** What one event lets the vendor say or stop saying, klleon.tsx:
    [echo] is called on an initialized widget whose list is not empty,
    with what the list holds under the cursor. *)
Lemma cyclic_step_speech (ev : Event) (w : World) :
  (forall m, In (Echo m) (snd (step ev w)) ->
             KlleonCyclic.isSDKInitialized (widget w) = true
             /\ 0 < List.length (KlleonCyclic.echoMessages (widget w))
             /\ m = nth_error (KlleonCyclic.echoMessages (widget w))
                              (KlleonCyclic.currentEchoIndex (widget w)))
  /\ (In StopSpeech (snd (step ev w)) ->
      KlleonCyclic.isSDKInitialized (widget w) = true).
Proof.
  destruct w as [[speaking status initialized msgs idx] tasks].
  destruct ev as [| | | | |s|c|i rejected]; simpl.
  8: { destruct (nth_error tasks i) as [[|]|]; simpl;
         try (cyclic_handlers; destruct rejected; simpl);
         (split; [intros m Hin | intros Hin];
          simpl in Hin; intuition discriminate). }
  all: cyclic_handlers; destruct initialized; simpl; split_conditions;
    (split; [intros m Hin | intros Hin]);
    simpl in Hin; try reflexivity;
    try (destruct Hin as [Hin|[]]; injection Hin as <-;
         split; [reflexivity|]; split; [|reflexivity];
         apply Nat.ltb_lt; assumption);
    intuition discriminate.
Qed.

End KlleonCyclicSessions.

(** * Both revisions of the avatar widget *)

(** The avatar speaks, and is told to stop speaking, only through a widget
    whose SDK is marked initialized: in either revision, whatever the
    state, an event that calls [echo] or [stopSpeech] found
    [isSDKInitialized] set. *)
Theorem speech_needs_an_initialized_sdk
        (env : KlleonChat.Env)
        (cyclic : KlleonCyclic.World) (cyclicEvent : KlleonCyclic.Event)
        (guarded : KlleonGuarded.World) (guardedEvent : KlleonGuarded.Event) :
  ((exists m, In (KlleonChat.Echo m)
                 (snd (KlleonCyclic.step env cyclicEvent cyclic)))
   \/ In KlleonChat.StopSpeech
         (snd (KlleonCyclic.step env cyclicEvent cyclic)) ->
   KlleonCyclic.isSDKInitialized (KlleonCyclic.widget cyclic) = true)
  /\
  ((exists m, In (KlleonChat.Echo m)
                 (snd (KlleonGuarded.step env guardedEvent guarded)))
   \/ In KlleonChat.StopSpeech
         (snd (KlleonGuarded.step env guardedEvent guarded)) ->
   KlleonGuarded.isSDKInitialized (KlleonGuarded.widget guarded) = true).
Proof.
  split.
  - destruct (cyclic_step_speech env cyclicEvent cyclic) as [Hecho Hstop].
    intros [[m Hin]|Hin]; [exact (proj1 (Hecho m Hin)) | exact (Hstop Hin)].
  - destruct (guarded_step_speech env guardedEvent guarded) as [Hecho Hstop].
    intros [[m Hin]|Hin]; [exact (proj1 (Hecho m Hin)) | exact (Hstop Hin)].
Qed.

Lemma speech_needs_an_initialized_sdk_witness :
  In (KlleonChat.Echo (Some "Hello!"))
     (snd (KlleonGuarded.step Samples.avatarEnv KlleonGuarded.Call_playNextEcho
             (KlleonGuarded.mkWorld (Samples.guardedReady 0) [])))
  /\ KlleonGuarded.isSDKInitialized
       (KlleonGuarded.widget
          (KlleonGuarded.mkWorld (Samples.guardedReady 0) [])) = true.
Proof.
  assert (Hin : In (KlleonChat.Echo (Some "Hello!"))
                   (snd (KlleonGuarded.step Samples.avatarEnv
                           KlleonGuarded.Call_playNextEcho
                           (KlleonGuarded.mkWorld (Samples.guardedReady 0) []))))
    by (simpl; auto).
  split; [exact Hin|].
  apply (proj2 (speech_needs_an_initialized_sdk
                  Samples.avatarEnv
                  (KlleonCyclic.mkWorld (Samples.cyclicReady 0) [])
                  KlleonCyclic.Call_playNextEcho
                  (KlleonGuarded.mkWorld (Samples.guardedReady 0) [])
                  KlleonGuarded.Call_playNextEcho)).
  left. exists (Some "Hello!"). exact Hin.
Defined.

(** What [echo] is given is always a line of the list, never [undefined]:
    in the second revision in every state, in klleon.tsx in every state
    reached from one whose cursor is zero. *)
Theorem echo_is_given_a_line_of_the_list
        (env : KlleonChat.Env)
        (cyclic : KlleonCyclic.World) (evs : list KlleonCyclic.Event)
        (cyclicEvent : KlleonCyclic.Event)
        (guarded : KlleonGuarded.World) (guardedEvent : KlleonGuarded.Event)
        (m : option string) :
  (KlleonCyclic.currentEchoIndex (KlleonCyclic.widget cyclic) = 0 ->
   In (KlleonChat.Echo m)
      (snd (KlleonCyclic.step env cyclicEvent
              (KlleonCyclic.run env evs cyclic))) ->
   exists line,
     m = Some line
     /\ In line (KlleonCyclic.echoMessages (KlleonCyclic.widget cyclic)))
  /\
  (In (KlleonChat.Echo m)
      (snd (KlleonGuarded.step env guardedEvent guarded)) ->
   exists line,
     m = Some line
     /\ In line (KlleonGuarded.echoMessages (KlleonGuarded.widget guarded))).
Proof.
  split.
  - intros Hstart Hin.
    destruct (cyclic_cursor_inside env cyclic evs (or_introl Hstart))
      as [Hmsgs Hcursor].
    destruct (cyclic_step_speech env cyclicEvent
                (KlleonCyclic.run env evs cyclic)) as [Hecho _].
    destruct (Hecho m Hin) as (_ & Hpos & ->).
    rewrite Hmsgs in *.
    destruct (nth_error_skipn_cons
                (KlleonCyclic.echoMessages (KlleonCyclic.widget cyclic))
                (KlleonCyclic.currentEchoIndex
                   (KlleonCyclic.widget (KlleonCyclic.run env evs cyclic))))
      as (line & Hline & _); [destruct Hcursor; lia|].
    exists line. split; [exact Hline|]. eapply nth_error_In. exact Hline.
  - intros Hin.
    destruct (guarded_step_speech env guardedEvent guarded) as [Hecho _].
    exact (proj2 (Hecho m Hin)).
Qed.

Lemma echo_is_given_a_line_of_the_list_witness :
  KlleonCyclic.currentEchoIndex
    (KlleonCyclic.widget (KlleonCyclic.initialWorld Samples.lines)) = 0
  /\ In (KlleonChat.Echo (Some "How are you today?"))
        (snd (KlleonCyclic.step Samples.avatarEnv KlleonCyclic.Call_playNextEcho
                (KlleonCyclic.run Samples.avatarEnv Samples.cyclicSession
                   (KlleonCyclic.initialWorld Samples.lines))))
  /\ exists line,
       Some "How are you today?" = Some line /\ In line Samples.lines.
Proof.
  assert (Hin : In (KlleonChat.Echo (Some "How are you today?"))
                   (snd (KlleonCyclic.step Samples.avatarEnv
                           KlleonCyclic.Call_playNextEcho
                           (KlleonCyclic.run Samples.avatarEnv
                              Samples.cyclicSession
                              (KlleonCyclic.initialWorld Samples.lines)))))
    by (simpl; auto).
  split; [reflexivity|]. split; [exact Hin|].
  exact (proj1 (echo_is_given_a_line_of_the_list
                  Samples.avatarEnv
                  (KlleonCyclic.initialWorld Samples.lines)
                  Samples.cyclicSession KlleonCyclic.Call_playNextEcho
                  (KlleonGuarded.initialWorld Samples.lines)
                  KlleonGuarded.Call_playNextEcho
                  (Some "How are you today?"))
               eq_refl Hin).
Defined.

(** Only [playNextEcho] and [resetEchoIndex] move the cursor, and nothing
    changes the list: in either revision every other event (starting or
    stopping the SDK, stopping the speech, a callback of the vendor, a
    promise settling) leaves the dialogue where it was. *)
Theorem only_two_handlers_move_the_cursor
        (env : KlleonChat.Env)
        (cyclic : KlleonCyclic.World) (cyclicEvent : KlleonCyclic.Event)
        (guarded : KlleonGuarded.World) (guardedEvent : KlleonGuarded.Event) :
  (KlleonCyclic.echoMessages
     (KlleonCyclic.widget (fst (KlleonCyclic.step env cyclicEvent cyclic)))
   = KlleonCyclic.echoMessages (KlleonCyclic.widget cyclic)
   /\ (cyclicEvent = KlleonCyclic.Call_playNextEcho
       \/ cyclicEvent = KlleonCyclic.Call_resetEchoIndex
       \/ KlleonCyclic.currentEchoIndex
            (KlleonCyclic.widget
               (fst (KlleonCyclic.step env cyclicEvent cyclic)))
          = KlleonCyclic.currentEchoIndex (KlleonCyclic.widget cyclic)))
  /\
  (KlleonGuarded.echoMessages
     (KlleonGuarded.widget (fst (KlleonGuarded.step env guardedEvent guarded)))
   = KlleonGuarded.echoMessages (KlleonGuarded.widget guarded)
   /\ (guardedEvent = KlleonGuarded.Call_playNextEcho
       \/ guardedEvent = KlleonGuarded.Call_resetEchoIndex
       \/ KlleonGuarded.currentEchoIndex
            (KlleonGuarded.widget
               (fst (KlleonGuarded.step env guardedEvent guarded)))
          = KlleonGuarded.currentEchoIndex (KlleonGuarded.widget guarded))).
Proof.
  split.
  - split; [exact (proj1 (cyclic_step_cursor env cyclicEvent cyclic))|].
    destruct cyclic as [[speaking status initialized msgs idx] tasks].
    destruct cyclicEvent as [| | | | |s|c|i rejected];
      [right; right | right; right | now left | right; right
      | now right; left | right; right | right; right | right; right];
      simpl.
    6: { destruct (nth_error tasks i) as [[|]|]; simpl;
           try (cyclic_handlers; destruct rejected; simpl); reflexivity. }
    all: cyclic_handlers; split_conditions; reflexivity.
  - split; [exact (proj1 (guarded_step_cursor env guardedEvent guarded))|].
    destruct guarded
      as [[speaking status initialized initializing msgs idx] tasks].
    destruct guardedEvent as [| | | | |s|c|i rejected];
      [right; right | right; right | now left | right; right
      | now right; left | right; right | right; right | right; right];
      simpl.
    6: { destruct (nth_error tasks i) as [[|]|]; simpl;
           try (guarded_handlers; try destruct rejected; simpl;
                split_conditions); reflexivity. }
    all: guarded_handlers; split_conditions; reflexivity.
Qed.

(** * The further properties at sample inputs *)

Lemma start_button_agrees_with_startSDK_witness :
  KlleonGuarded.startDisabled
    (KlleonGuarded.render Samples.avatarEnv (Samples.guardedReady 0)) = true
  /\ KlleonGuarded.startSDK (Samples.guardedReady 0)
     = (Returned None, Samples.guardedReady 0, []).
Proof.
  split; [reflexivity|].
  exact (proj1 (start_button_agrees_with_startSDK
                  Samples.avatarEnv (Samples.guardedReady 0)) eq_refl).
Defined.

Lemma guarded_init_is_never_doubled_witness :
  In (KlleonChat.Init (KlleonChat.mkInitOption (Some "sdk-key")
                                               (Some "avatar-1")))
     (snd (KlleonGuarded.step Samples.avatarEnv (KlleonGuarded.Settle 0 None)
             (KlleonGuarded.run Samples.avatarEnv [KlleonGuarded.Call_startSDK]
                (KlleonGuarded.initialWorld Samples.lines))))
  /\ KlleonGuarded.inflight
       (KlleonGuarded.run Samples.avatarEnv [KlleonGuarded.Call_startSDK]
          (KlleonGuarded.initialWorld Samples.lines))
     = [KlleonGuarded.StartSDK_awaitTimer].
Proof.
  assert (Hin : In (KlleonChat.Init (KlleonChat.mkInitOption
                                       (Some "sdk-key") (Some "avatar-1")))
                   (snd (KlleonGuarded.step Samples.avatarEnv
                           (KlleonGuarded.Settle 0 None)
                           (KlleonGuarded.run Samples.avatarEnv
                              [KlleonGuarded.Call_startSDK]
                              (KlleonGuarded.initialWorld Samples.lines)))))
    by (simpl; auto 10).
  split; [exact Hin|].
  exact (proj2 (guarded_init_is_never_doubled
                  Samples.avatarEnv Samples.lines
                  [KlleonGuarded.Call_startSDK] (KlleonGuarded.Settle 0 None)
                  _ Hin)).
Defined.

Lemma one_startSDK_at_a_time_witness :
  List.length
    (KlleonGuarded.inflight
       (KlleonGuarded.run Samples.avatarEnv
          [KlleonGuarded.Call_startSDK; KlleonGuarded.Call_startSDK]
          (KlleonGuarded.initialWorld Samples.lines)))
  <= 1.
Proof.
  exact (proj1 (one_startSDK_at_a_time
                  Samples.avatarEnv Samples.lines
                  [KlleonGuarded.Call_startSDK; KlleonGuarded.Call_startSDK])).
Defined.

Lemma startSDK_initializes_the_sdk_witness :
  negb (truthyOpt (KlleonChat.SDK_KEY Samples.avatarEnv))
  || negb (truthyOpt (KlleonChat.AVATAR_ID Samples.avatarEnv)) = false
  /\ KlleonGuarded.isSDKInitialized
       (KlleonGuarded.widget
          (KlleonGuarded.run Samples.avatarEnv
             [KlleonGuarded.Call_startSDK; KlleonGuarded.Settle 0 None;
              KlleonGuarded.Settle 0 None]
             (KlleonGuarded.mkWorld
                (KlleonGuarded.initialState Samples.lines) [])))
     = true.
Proof.
  split; [reflexivity|].
  rewrite (proj1 (startSDK_initializes_the_sdk
                    Samples.avatarEnv
                    (KlleonGuarded.initialState Samples.lines) None
                    eq_refl eq_refl eq_refl)).
  reflexivity.
Defined.

Lemma startSDK_can_be_retried_after_a_rejection_witness :
  negb (truthyOpt (KlleonChat.SDK_KEY Samples.avatarEnv))
  || negb (truthyOpt (KlleonChat.AVATAR_ID Samples.avatarEnv)) = false
  /\ KlleonGuarded.startDisabled
       (KlleonGuarded.render Samples.avatarEnv
          (KlleonGuarded.widget
             (KlleonGuarded.run Samples.avatarEnv
                [KlleonGuarded.Call_startSDK; KlleonGuarded.Settle 0 None;
                 KlleonGuarded.Settle 0 (Some "network")]
                (KlleonGuarded.mkWorld
                   (KlleonGuarded.initialState Samples.lines) []))))
     = false.
Proof.
  split; [reflexivity|].
  exact (proj2 (proj2 (startSDK_can_be_retried_after_a_rejection
                         Samples.avatarEnv
                         (KlleonGuarded.initialState Samples.lines) None
                         "network" eq_refl eq_refl eq_refl))).
Defined.

Lemma sdk_never_starts_without_its_key_witness :
  negb (truthyOpt (KlleonChat.SDK_KEY Samples.avatarEnvNoKey))
  || negb (truthyOpt (KlleonChat.AVATAR_ID Samples.avatarEnvNoKey)) = true
  /\ KlleonGuarded.isSDKInitialized
       (KlleonGuarded.widget
          (KlleonGuarded.run Samples.avatarEnvNoKey Samples.guardedSession
             (KlleonGuarded.initialWorld Samples.lines)))
     = false.
Proof.
  split; [reflexivity|].
  exact (proj1 (sdk_never_starts_without_its_key
                  Samples.avatarEnvNoKey Samples.lines
                  Samples.guardedSession eq_refl)).
Defined.

Lemma lines_are_spoken_in_order_witness :
  KlleonGuarded.isSDKInitialized (Samples.guardedReady 0) = true
  /\ KlleonGuarded.currentEchoIndex (Samples.guardedReady 0) + 2
     <= List.length (KlleonGuarded.echoMessages (Samples.guardedReady 0))
  /\ KlleonChat.spoken
       (KlleonGuarded.trace Samples.avatarEnv
          (repeat KlleonGuarded.Call_playNextEcho 2)
          (KlleonGuarded.mkWorld (Samples.guardedReady 0) []))
     = [Some "Hello!"; Some "How are you today?"].
Proof.
  assert (Hfit : KlleonGuarded.currentEchoIndex (Samples.guardedReady 0) + 2
                 <= List.length
                      (KlleonGuarded.echoMessages (Samples.guardedReady 0)))
    by (simpl; lia).
  split; [reflexivity|]. split; [exact Hfit|].
  exact (proj1 (lines_are_spoken_in_order
                  Samples.avatarEnv 2 (Samples.guardedReady 0) []
                  eq_refl Hfit)).
Defined.

Lemma playNextEcho_stops_at_the_end_witness :
  KlleonGuarded.isSDKInitialized (Samples.guardedReady 2) = true
  /\ List.length (KlleonGuarded.echoMessages (Samples.guardedReady 2))
     <= KlleonGuarded.currentEchoIndex (Samples.guardedReady 2)
  /\ stateOf (KlleonGuarded.playNextEcho (Samples.guardedReady 2))
     = Samples.guardedReady 2.
Proof.
  assert (Hend : List.length
                   (KlleonGuarded.echoMessages (Samples.guardedReady 2))
                 <= KlleonGuarded.currentEchoIndex (Samples.guardedReady 2))
    by (simpl; lia).
  split; [reflexivity|]. split; [exact Hend|].
  now rewrite (playNextEcho_stops_at_the_end
                 (Samples.guardedReady 2) eq_refl Hend).
Defined.

Lemma play_button_speaks_the_line_shown_witness :
  KlleonGuarded.playDisabled
    (KlleonGuarded.render Samples.avatarEnv (Samples.guardedReady 1)) = false
  /\ exists line,
       effectsOf (KlleonGuarded.playNextEcho (Samples.guardedReady 1))
       = [KlleonChat.ConsoleLog ["Speaking:"; line];
          KlleonChat.Echo (Some line)].
Proof.
  split; [reflexivity|].
  destruct (play_button_speaks_the_line_shown
              Samples.avatarEnv (Samples.guardedReady 1) eq_refl)
    as (line & _ & Heffects & _).
  exists line. exact Heffects.
Defined.

Lemma unmount_destroys_an_initialized_session_only_witness :
  KlleonGuarded.inflight
    (KlleonGuarded.run Samples.avatarEnv [KlleonGuarded.Call_startSDK]
       (KlleonGuarded.initialWorld Samples.lines)) <> []
  /\ KlleonGuarded.unmount
       (KlleonGuarded.run Samples.avatarEnv [KlleonGuarded.Call_startSDK]
          (KlleonGuarded.initialWorld Samples.lines)) = [].
Proof.
  assert (Hwaiting : KlleonGuarded.inflight
                       (KlleonGuarded.run Samples.avatarEnv
                          [KlleonGuarded.Call_startSDK]
                          (KlleonGuarded.initialWorld Samples.lines)) <> [])
    by discriminate.
  split; [exact Hwaiting|].
  exact (proj2 (unmount_destroys_an_initialized_session_only
                  Samples.avatarEnv Samples.lines
                  [KlleonGuarded.Call_startSDK]) Hwaiting).
Defined.

Lemma lines_are_spoken_in_a_cycle_witness :
  KlleonCyclic.isSDKInitialized (Samples.cyclicReady 1) = true
  /\ KlleonCyclic.currentEchoIndex (Samples.cyclicReady 1)
     < List.length (KlleonCyclic.echoMessages (Samples.cyclicReady 1))
  /\ KlleonChat.spoken
       (KlleonCyclic.trace Samples.avatarEnv
          (repeat KlleonCyclic.Call_playNextEcho 3)
          (KlleonCyclic.mkWorld (Samples.cyclicReady 1) []))
     = [Some "How are you today?"; Some "Hello!";
        Some "How are you today?"].
Proof.
  assert (Hinside : KlleonCyclic.currentEchoIndex (Samples.cyclicReady 1)
                    < List.length
                        (KlleonCyclic.echoMessages (Samples.cyclicReady 1)))
    by (simpl; lia).
  split; [reflexivity|]. split; [exact Hinside|].
  exact (proj1 (lines_are_spoken_in_a_cycle
                  Samples.avatarEnv 3 (Samples.cyclicReady 1) []
                  eq_refl Hinside)).
Defined.

(** * What is rendered and what the handlers do *)

(** The play button of klleon.tsx.  In every state reached from one whose
    cursor is zero, when the button is rendered enabled a call of
    [playNextEcho] speaks the line under the cursor, which is a line of
    the list and, unless it is the empty string, the line rendered as the
    current one. *)
Theorem cyclic_play_button_speaks_the_line_shown
        (env : KlleonChat.Env) (w0 : KlleonCyclic.World)
        (evs : list KlleonCyclic.Event) :
  KlleonCyclic.currentEchoIndex (KlleonCyclic.widget w0) = 0 ->
  KlleonCyclic.playDisabled
    (KlleonCyclic.widget (KlleonCyclic.run env evs w0)) = false ->
  exists line,
    nth_error
      (KlleonCyclic.echoMessages
         (KlleonCyclic.widget (KlleonCyclic.run env evs w0)))
      (KlleonCyclic.currentEchoIndex
         (KlleonCyclic.widget (KlleonCyclic.run env evs w0)))
    = Some line
    /\ effectsOf
         (KlleonCyclic.playNextEcho
            (KlleonCyclic.widget (KlleonCyclic.run env evs w0)))
       = [KlleonChat.Echo (Some line)]
    /\ (line <> EmptyString ->
        KlleonCyclic.currentLineText
          (KlleonCyclic.widget (KlleonCyclic.run env evs w0)) = line).
Proof.
  intros Hstart Hbutton.
  destruct (cyclic_cursor_inside env w0 evs (or_introl Hstart))
    as [Hmsgs Hcursor].
  unfold KlleonCyclic.playDisabled in Hbutton.
  apply orb_false_iff in Hbutton as [Hbutton Hempty].
  apply orb_false_iff in Hbutton as [Hinit _].
  apply negb_false_iff in Hinit. apply Nat.eqb_neq in Hempty.
  rewrite <- Hmsgs in Hcursor.
  destruct (nth_error_skipn_cons
              (KlleonCyclic.echoMessages
                 (KlleonCyclic.widget (KlleonCyclic.run env evs w0)))
              (KlleonCyclic.currentEchoIndex
                 (KlleonCyclic.widget (KlleonCyclic.run env evs w0))))
    as (line & Hline & _); [destruct Hcursor; lia|].
  exists line. split; [exact Hline|].
  rewrite (cyclic_playNextEcho_speaks _ Hinit) by lia.
  split; [unfold effectsOf; simpl; now rewrite Hline|].
  intros Hline'. unfold KlleonCyclic.currentLineText. rewrite Hline.
  destruct line; [congruence | reflexivity].
Qed.

Lemma cyclic_play_button_speaks_the_line_shown_witness :
  KlleonCyclic.currentEchoIndex
    (KlleonCyclic.widget (KlleonCyclic.initialWorld Samples.lines)) = 0
  /\ KlleonCyclic.playDisabled
       (KlleonCyclic.widget
          (KlleonCyclic.run Samples.avatarEnv Samples.cyclicSession
             (KlleonCyclic.initialWorld Samples.lines))) = false
  /\ exists line,
       effectsOf
         (KlleonCyclic.playNextEcho
            (KlleonCyclic.widget
               (KlleonCyclic.run Samples.avatarEnv Samples.cyclicSession
                  (KlleonCyclic.initialWorld Samples.lines))))
       = [KlleonChat.Echo (Some line)].
Proof.
  split; [reflexivity|]. split; [reflexivity|].
  destruct (cyclic_play_button_speaks_the_line_shown
              Samples.avatarEnv (KlleonCyclic.initialWorld Samples.lines)
              Samples.cyclicSession eq_refl eq_refl)
    as (line & _ & Heffects & _).
  exists line. exact Heffects.
Defined.

(** The other buttons of the second revision.  When the stop button is
    rendered enabled, [stopSDK] stops the speech and destroys the session;
    when the button that interrupts the avatar is rendered enabled,
    [stopSpeech] calls the vendor; and once the cursor has passed the
    last line, the view shows the closing text in place of a line, labels
    the play button as done and disables it. *)
Theorem rendered_buttons_agree_with_the_handlers
        (env : KlleonChat.Env) (st : KlleonGuarded.State) :
  (KlleonGuarded.stopDisabled (KlleonGuarded.render env st) = false ->
   effectsOf (KlleonGuarded.stopSDK st)
   = [KlleonChat.StopSpeech; KlleonChat.Destroy;
      KlleonChat.ConsoleLog ["SDK 종료 완료"]])
  /\ (KlleonGuarded.stopSpeechDisabled (KlleonGuarded.render env st) = false ->
      effectsOf (KlleonGuarded.stopSpeech st) = [KlleonChat.StopSpeech])
  /\ (List.length (KlleonGuarded.echoMessages st)
      <= KlleonGuarded.currentEchoIndex st ->
      KlleonGuarded.nextLineText (KlleonGuarded.render env st)
      = "모든 대사 완료"
      /\ KlleonGuarded.playLabel (KlleonGuarded.render env st) = "완료"
      /\ KlleonGuarded.playDisabled (KlleonGuarded.render env st) = true).
Proof.
  unfold KlleonGuarded.render;
    cbn [KlleonGuarded.stopDisabled KlleonGuarded.stopSpeechDisabled
         KlleonGuarded.nextLineText KlleonGuarded.playLabel
         KlleonGuarded.playDisabled].
  split; [|split].
  - intros Hbutton. apply orb_false_iff in Hbutton as [Hinit _].
    apply negb_false_iff in Hinit.
    now rewrite (proj1 (stopSDK_resets_the_session_only st) Hinit).
  - intros Hbutton. apply orb_false_iff in Hbutton as [Hinit _].
    apply negb_false_iff in Hinit.
    unfold KlleonGuarded.stopSpeech, bind, get. now rewrite Hinit.
  - intros Hend.
    assert (Hnone : nth_error (KlleonGuarded.echoMessages st)
                              (KlleonGuarded.currentEchoIndex st) = None)
      by (apply nth_error_None; exact Hend).
    apply Nat.leb_le in Hend. rewrite Hnone, Hend.
    split; [reflexivity|]. split; [reflexivity|].
    now rewrite !orb_true_r.
Qed.

Lemma rendered_buttons_agree_with_the_handlers_witness :
  KlleonGuarded.stopDisabled
    (KlleonGuarded.render Samples.avatarEnv (Samples.guardedReady 2)) = false
  /\ List.length (KlleonGuarded.echoMessages (Samples.guardedReady 2))
     <= KlleonGuarded.currentEchoIndex (Samples.guardedReady 2)
  /\ effectsOf (KlleonGuarded.stopSDK (Samples.guardedReady 2))
     = [KlleonChat.StopSpeech; KlleonChat.Destroy;
        KlleonChat.ConsoleLog ["SDK 종료 완료"]]
  /\ KlleonGuarded.playDisabled
       (KlleonGuarded.render Samples.avatarEnv (Samples.guardedReady 2))
     = true.
Proof.
  assert (Hend : List.length
                   (KlleonGuarded.echoMessages (Samples.guardedReady 2))
                 <= KlleonGuarded.currentEchoIndex (Samples.guardedReady 2))
    by (simpl; lia).
  split; [reflexivity|]. split; [exact Hend|].
  destruct (rendered_buttons_agree_with_the_handlers
              Samples.avatarEnv (Samples.guardedReady 2))
    as (Hstop & _ & Hdone).
  split; [exact (Hstop eq_refl) | exact (proj2 (proj2 (Hdone Hend)))].
Defined.

(** The dialogue goes on after a restart.  In the second revision, with
    the key and the avatar id present: stopping an initialized widget,
    starting it again (the call, its timer, [init] resolving) and asking
    for the next line speaks the line that was under the cursor before the
    stop, and nothing else. *)
Theorem dialogue_resumes_after_a_restart
        (env : KlleonChat.Env) (st : KlleonGuarded.State) (line : string) :
  negb (truthyOpt (KlleonChat.SDK_KEY env))
  || negb (truthyOpt (KlleonChat.AVATAR_ID env)) = false ->
  KlleonGuarded.isSDKInitialized st = true ->
  KlleonGuarded.isInitializing st = false ->
  nth_error (KlleonGuarded.echoMessages st) (KlleonGuarded.currentEchoIndex st)
  = Some line ->
  KlleonChat.spoken
    (KlleonGuarded.trace env
       [KlleonGuarded.Call_stopSDK; KlleonGuarded.Call_startSDK;
        KlleonGuarded.Settle 0 None; KlleonGuarded.Settle 0 None;
        KlleonGuarded.Call_playNextEcho]
       (KlleonGuarded.mkWorld st []))
  = [Some line]
  /\ KlleonGuarded.widget
       (KlleonGuarded.run env
          [KlleonGuarded.Call_stopSDK; KlleonGuarded.Call_startSDK;
           KlleonGuarded.Settle 0 None; KlleonGuarded.Settle 0 None;
           KlleonGuarded.Call_playNextEcho]
          (KlleonGuarded.mkWorld st []))
     = KlleonGuarded.mkState false "IDLE" true false
         (KlleonGuarded.echoMessages st)
         (KlleonGuarded.currentEchoIndex st + 1).
Proof.
  intros Hkeys Hinit Hinitializing Hline.
  destruct st as [speaking status initialized initializing msgs idx].
  simpl in Hinit, Hinitializing, Hline. subst.
  pose proof (guarded_playNextEcho_speaks
                (KlleonGuarded.mkState false "IDLE" true false msgs idx)
                line eq_refl Hline) as Hplay.
  unfold KlleonGuarded.run, KlleonGuarded.trace.
  cbn [fold_left KlleonGuarded.step].
  unfold KlleonGuarded.spawn, KlleonGuarded.call, KlleonGuarded.resume,
    KlleonGuarded.startSDK, KlleonGuarded.startSDK_afterTimer,
    KlleonGuarded.startSDK_afterInit, KlleonGuarded.stopSDK,
    bind, tryCatch, get.
  cbn -[KlleonGuarded.playNextEcho]. rewrite Hkeys.
  cbn -[KlleonGuarded.playNextEcho]. rewrite Hplay.
  split; reflexivity.
Qed.

Lemma dialogue_resumes_after_a_restart_witness :
  negb (truthyOpt (KlleonChat.SDK_KEY Samples.avatarEnv))
  || negb (truthyOpt (KlleonChat.AVATAR_ID Samples.avatarEnv)) = false
  /\ KlleonGuarded.isSDKInitialized (Samples.guardedReady 1) = true
  /\ KlleonGuarded.isInitializing (Samples.guardedReady 1) = false
  /\ nth_error (KlleonGuarded.echoMessages (Samples.guardedReady 1))
               (KlleonGuarded.currentEchoIndex (Samples.guardedReady 1))
     = Some "How are you today?"
  /\ KlleonChat.spoken
       (KlleonGuarded.trace Samples.avatarEnv
          [KlleonGuarded.Call_stopSDK; KlleonGuarded.Call_startSDK;
           KlleonGuarded.Settle 0 None; KlleonGuarded.Settle 0 None;
           KlleonGuarded.Call_playNextEcho]
          (KlleonGuarded.mkWorld (Samples.guardedReady 1) []))
     = [Some "How are you today?"].
Proof.
  split; [reflexivity|]. split; [reflexivity|]. split; [reflexivity|].
  split; [reflexivity|].
  exact (proj1 (dialogue_resumes_after_a_restart
                  Samples.avatarEnv (Samples.guardedReady 1)
                  "How are you today?" eq_refl eq_refl eq_refl eq_refl)).
Defined.
